(** * PSE Dashboard service worker ([sw.js])

    A shallow embedding of the service worker of the PSE Dashboard PWA and
    the properties of its caching policy.

    The worker is a set of event listeners running on a host (the browser).
    The listeners are embedded as functions in a state-and-exception monad
    [Js] over a [World]: the cache storage, the window clients, the worker's
    life cycle and the trace of host calls with an effect outside the worker.
    The host interfaces the listeners call ([fetch], [caches], [Cache],
    [Response], [Headers], [clients], [JSON]) are embedded in [Module Host]
    after the Fetch and Service Worker standards, as far as the listeners
    can observe them. [console.log] has no effect a page or the worker can
    observe and is left out. *)

From stdpp Require Import gmap strings list fin_maps.
From Stdlib Require Import ZArith Ascii.

(** ** Text: the string operations the host performs on names and values *)

Module Text.

(** The double quote character. *)
Definition dq : string := String "034"%char EmptyString.

(** The backslash character. *)
Definition bs : string := String "092"%char EmptyString.

(** The line feed character. *)
Definition lf : string := String "010"%char EmptyString.

Definition lower_ascii (c : ascii) : ascii :=
  let n := N_of_ascii c in
  if ((65 <=? n) && (n <=? 90))%N then ascii_of_N (n + 32) else c.

(** Byte-lowercasing, as used to compare header names. *)
Fixpoint lower (s : string) : string :=
  match s with
  | EmptyString => EmptyString
  | String c r => String (lower_ascii c) (lower r)
  end.

(** HTTP whitespace: space, tab, line feed, carriage return. *)
Definition is_http_ws (c : ascii) : bool :=
  let n := N_of_ascii c in
  ((n =? 32) || (n =? 9) || (n =? 10) || (n =? 13))%N.

Fixpoint trim_left (s : string) : string :=
  match s with
  | EmptyString => EmptyString
  | String c r => if is_http_ws c then trim_left r else s
  end.

Fixpoint rev_onto (s acc : string) : string :=
  match s with
  | EmptyString => acc
  | String c r => rev_onto r (String c acc)
  end.

Definition srev (s : string) : string := rev_onto s EmptyString.

Definition trim (s : string) : string :=
  srev (trim_left (srev (trim_left s))).

(** [split_on sep s]: the pieces of [s] between the occurrences of [sep]. *)
Fixpoint split_on (sep : ascii) (s : string) : list string :=
  match s with
  | EmptyString => [EmptyString]
  | String c r =>
      if Ascii.eqb c sep then EmptyString :: split_on sep r
      else match split_on sep r with
           | [] => [String c EmptyString]
           | h :: t => String c h :: t
           end
  end.

(** [until sep s]: [s] up to, and without, the first [sep]. *)
Fixpoint until (sep : ascii) (s : string) : string :=
  match s with
  | EmptyString => EmptyString
  | String c r => if Ascii.eqb c sep then EmptyString else String c (until sep r)
  end.

Fixpoint starts_with (p s : string) : bool :=
  match p, s with
  | EmptyString, _ => true
  | String a p', String b s' => Ascii.eqb a b && starts_with p' s'
  | String _ _, EmptyString => false
  end.

(** [contains needle hay]: [needle] occurs in [hay]. *)
Fixpoint contains (needle hay : string) : bool :=
  starts_with needle hay ||
  match hay with
  | EmptyString => false
  | String _ r => contains needle r
  end.

Definition hex_digit (n : N) : ascii :=
  if (n <? 10)%N then ascii_of_N (48 + n) else ascii_of_N (87 + n).

End Text.

(** ** JSON: the JavaScript values the listeners inspect and serialise

    Event payloads and the JSON error body are values of [JValue]:
    [undefined], [null], booleans, strings and plain objects. Numbers and
    arrays do not occur in what the listeners read or serialise. *)

Module Json.
Import Text.

#[warnings="-register-all"]
Inductive JValue : Type :=
| JUndefined
| JNull
| JBool (b : bool)
| JString (s : string)
| JObject (fields : list (string * JValue)).

(** ToBoolean. *)
Definition truthy (v : JValue) : bool :=
  match v with
  | JUndefined | JNull => false
  | JBool b => b
  | JString s => negb (String.eqb s EmptyString)
  | JObject _ => true
  end.

(** [a || b]. *)
Definition js_or (a b : JValue) : JValue := if truthy a then a else b.

Fixpoint assoc (k : string) (fs : list (string * JValue)) : JValue :=
  match fs with
  | [] => JUndefined
  | (k', v) :: r => if String.eqb k k' then v else assoc k r
  end.

(** The property read [v.k], for a name [k] that the prototypes of
    strings and booleans do not define; [None] is the TypeError of
    reading a property of [undefined] or [null]. *)
Definition get_prop (v : JValue) (k : string) : option JValue :=
  match v with
  | JUndefined | JNull => None
  | JBool _ | JString _ => Some JUndefined
  | JObject fs => Some (assoc k fs)
  end.

(** ToString. *)
Definition to_string (v : JValue) : string :=
  match v with
  | JUndefined => "undefined"
  | JNull => "null"
  | JBool true => "true"
  | JBool false => "false"
  | JString s => s
  | JObject _ => "[object Object]"
  end.

(** [a === b] for a string literal [b]. *)
Definition strict_eq_string (a : JValue) (b : string) : bool :=
  match a with
  | JString s => String.eqb s b
  | _ => false
  end.

Definition quote_char (c : ascii) : string :=
  let n := N_of_ascii c in
  if (n =? 34)%N then bs +:+ dq
  else if (n =? 92)%N then bs +:+ bs
  else if (n =? 8)%N then bs +:+ "b"
  else if (n =? 9)%N then bs +:+ "t"
  else if (n =? 10)%N then bs +:+ "n"
  else if (n =? 12)%N then bs +:+ "f"
  else if (n =? 13)%N then bs +:+ "r"
  else if (n <? 32)%N then
    bs +:+ "u00" +:+ String (hex_digit (n / 16)) (String (hex_digit (n mod 16)) EmptyString)
  else String c EmptyString.

Fixpoint quote_body (s : string) : string :=
  match s with
  | EmptyString => EmptyString
  | String c r => quote_char c +:+ quote_body r
  end.

(** QuoteJSONString. *)
Definition quote (s : string) : string := dq +:+ quote_body s +:+ dq.

Definition join_comma (l : list string) : string :=
  match l with
  | [] => EmptyString
  | h :: t => fold_left (fun acc x => acc +:+ "," +:+ x) t h
  end.

(** [JSON.stringify v]; [None] is the result [undefined]. A property whose
    value serialises to [undefined] is left out of its object. *)
Fixpoint stringify (v : JValue) : option string :=
  match v with
  | JUndefined => None
  | JNull => Some "null"
  | JBool true => Some "true"
  | JBool false => Some "false"
  | JString s => Some (quote s)
  | JObject fs =>
      let members :=
        (fix go (fs : list (string * JValue)) : list string :=
           match fs with
           | [] => []
           | (k, x) :: r =>
               match stringify x with
               | Some t => (quote k +:+ ":" +:+ t) :: go r
               | None => go r
               end
           end) fs in
      Some ("{" +:+ join_comma members +:+ "}")
  end.

End Json.

(** ** Host: the browser interfaces the worker calls *)

Module Host.
Import Text Json.

(** *** Responses and their headers

    A response, as the network delivers it and as a cache partition stores
    it, is a [NetResponse]. A [Response] object is a response together with
    the guard of its [Headers] object. The headers of a [Response] that
    [fetch] or [Cache.match] hands out are guarded [Immutable]; those of one
    built with [new Response] are guarded [ResponseGuard]. [Response.clone]
    keeps the guard (Fetch standard: Headers class, Response class;
    Service Workers: Cache.matchAll). *)

Record NetResponse : Type := mkNetResponse {
  status : Z;
  statusText : string;
  headers : list (string * string);
  body : string
}.

Inductive Guard : Type := Immutable | ResponseGuard.

Record Response : Type := mkResponse {
  inner : NetResponse;
  headers_guard : Guard
}.

(** [response.ok]: the status is in the range 200-299. *)
Definition ok (r : Response) : bool :=
  ((200 <=? status (inner r)) && (status (inner r) <=? 299))%Z.

Definition with_headers (h : list (string * string)) (r : Response) : Response :=
  mkResponse
    (mkNetResponse (status (inner r)) (statusText (inner r)) h (body (inner r)))
    (headers_guard r).

(** [response.clone()]: a response with the same status, headers, guard
    and body. *)
Definition clone (r : Response) : Response := r.

(** The values of the headers named [name], names compared
    case-insensitively. *)
Definition header_values (name : string) (hs : list (string * string)) : list string :=
  map snd (filter (fun nv => String.eqb (lower (fst nv)) (lower name) = true) hs).

Definition headers_has (name : string) (hs : list (string * string)) : bool :=
  match header_values name hs with [] => false | _ :: _ => true end.

(** [headers.get(name)]: the values joined by a comma and a space. *)
Definition headers_get (name : string) (hs : list (string * string)) : option string :=
  match header_values name hs with
  | [] => None
  | v :: vs => Some (fold_left (fun acc x => acc +:+ ", " +:+ x) vs v)
  end.

(** A [Vary] header one of whose field values is the wildcard. *)
Definition vary_star (hs : list (string * string)) : bool :=
  existsb
    (fun v => existsb (fun x => String.eqb (trim x) "*") (split_on "," v))
    (header_values "Vary" hs).

(** *** Requests *)

(** The parts of a request's URL the worker and the cache look at:
    the serialisation, the scheme and the host name. *)
Record URL : Type := mkURL {
  href : string;
  scheme : string;
  hostname : string
}.

Record Request : Type := mkRequest {
  url : URL;
  method : string;
  destination : string
}.

(** [drop_through pat s]: what follows the first occurrence of [pat]. *)
Fixpoint drop_through (pat s : string) : option string :=
  if starts_with pat s then Some (String.substring (String.length pat) (String.length s) s)
  else match s with
       | EmptyString => None
       | String _ r => drop_through pat r
       end.

Definition authority_of (rest : string) : string :=
  until "/" (until "?" (until "#" rest)).

(** The URL parser on the two forms of URL string the worker writes:
    an absolute [scheme://host[:port]/...] string, and a path-absolute
    string (beginning with a slash), resolved against the worker's own
    location [base]. *)
Definition parse_url (base : URL) (s : string) : URL :=
  match drop_through "://" s with
  | Some rest =>
      mkURL s (until ":" s) (until ":" (authority_of rest))
  | None =>
      match drop_through "://" (href base) with
      | Some rest =>
          mkURL (scheme base +:+ "://" +:+ authority_of rest +:+ s)
                (scheme base) (hostname base)
      | None => mkURL s (scheme base) (hostname base)
      end
  end.

(** [new Request(s)]: a [GET] request with an empty destination. *)
Definition new_Request (base : URL) (s : string) : Request :=
  mkRequest (parse_url base s) "GET" EmptyString.

(** *** Exceptions and completions *)

Inductive Exn : Type :=
| NetworkFailure      (* the TypeError [fetch] rejects with *)
| HeadersImmutable    (* TypeError: a write to Headers guarded Immutable *)
| PutUnsupported      (* TypeError: [Cache.put] refuses the request or the response *)
| AddAllRejected      (* TypeError: [Cache.addAll] refuses one of the responses *)
| NullProperty        (* TypeError: a property read of [undefined] or [null] *)
| JsonSyntax          (* SyntaxError of [json()] *)
| BadStatus.          (* RangeError / TypeError of [new Response] *)

Inductive Completion (A : Type) : Type :=
| Normal (a : A)
| Throw (e : Exn).
Arguments Normal {A} a.
Arguments Throw {A} e.

(** *** The world *)

Record NotificationOptions : Type := mkOptions {
  opt_body : string;
  opt_icon : string;
  opt_badge : string;
  opt_vibrate : list Z;
  opt_data : JValue;
  opt_actions : list (string * string)
}.

(** The host calls of the worker with an effect outside of it. *)
Inductive Effect : Type :=
| Fetched (r : Request)
| SkipWaitingCalled
| ClientsClaimed
| NotificationShown (title : string) (o : NotificationOptions)
| NotificationClosed
| WindowOpened (target : string)
| MessagePosted (client : string) (m : JValue)
| SyncRegistered (tag : string).

Inductive Lifecycle : Type := Installing | Waiting | Active.

Record World : Type := mkWorld {
  caches : gmap string (gmap string NetResponse);  (* CacheStorage: name -> partition *)
  clients : list string;                           (* what clients.matchAll() lists *)
  lifecycle : Lifecycle;
  skip_waiting_flag : bool;
  trace : list Effect                              (* oldest first *)
}.

Definition set_caches (f : gmap string (gmap string NetResponse) -> gmap string (gmap string NetResponse))
    (w : World) : World :=
  mkWorld (f (caches w)) (clients w) (lifecycle w) (skip_waiting_flag w) (trace w).

Definition emit (e : Effect) (w : World) : World :=
  mkWorld (caches w) (clients w) (lifecycle w) (skip_waiting_flag w) (trace w ++ [e]).

(** *** The monad of listener code: state and exceptions *)

Definition Js (A : Type) : Type := World -> Completion A * World.

#[global] Instance Js_ret : MRet Js := fun A a w => (Normal a, w).

#[global] Instance Js_bind : MBind Js := fun A B f m w =>
  match m w with
  | (Normal a, w') => f a w'
  | (Throw e, w') => (Throw e, w')
  end.

Definition throw {A : Type} (e : Exn) : Js A := fun w => (Throw e, w).

(** [try { body } catch (error) { handler }] *)
Definition try_catch {A : Type} (body : Js A) (handler : Exn -> Js A) : Js A :=
  fun w =>
    match body w with
    | (Normal a, w') => (Normal a, w')
    | (Throw e, w') => handler e w'
    end.

Fixpoint for_each {A : Type} (f : A -> Js unit) (l : list A) : Js unit :=
  match l with
  | [] => mret tt
  | x :: r => _ ← f x; for_each f r
  end.

(** *** fetch *)

(** [fetch(request)] against the network [net]: [net r = None] is a network
    failure, on which the promise rejects. *)
Definition fetch (net : Request -> option NetResponse) (r : Request) : Js Response :=
  fun w =>
    match net r with
    | Some resp => (Normal (mkResponse resp Immutable), emit (Fetched r) w)
    | None => (Throw NetworkFailure, emit (Fetched r) w)
    end.

(** *** CacheStorage and Cache

    A partition maps the URL of a stored request, without its fragment, to
    the stored response. Request headers are not part of a [Request] here,
    so the comparison of the request headers that a stored [Vary] names is
    not made: a match is decided by the method and the URL. This is what
    the host does when the stored response has no [Vary] header, and when
    the request matched is the one that was stored.
    A [Cache] object is represented by the name of its partition. *)

Definition key_of (r : Request) : string := until "#" (href (url r)).

(** [caches.open(name)]: creates the partition when there is none. *)
Definition caches_open (name : string) : Js string :=
  fun w =>
    (Normal name,
     set_caches (fun cs => match cs !! name with
                           | Some _ => cs
                           | None => <[name := ∅]> cs
                           end) w).

Definition caches_keys : Js (list string) :=
  fun w => (Normal (elements (dom (caches w))), w).

Definition caches_delete (name : string) : Js unit :=
  fun w => (Normal tt, set_caches (delete name) w).

(** What [Cache.put] accepts (Service Workers: Cache.put): a [GET] request
    over http or https, and a response that is not partial (206) and whose
    [Vary] header has no wildcard. *)
Definition put_accepts (req : Request) (resp : Response) : bool :=
  (String.eqb (scheme (url req)) "http" || String.eqb (scheme (url req)) "https")
  && String.eqb (method req) "GET"
  && negb (status (inner resp) =? 206)%Z
  && negb (vary_star (headers (inner resp))).

Definition store (cache : string) (req : Request) (resp : Response)
    (cs : gmap string (gmap string NetResponse)) : gmap string (gmap string NetResponse) :=
  <[cache := <[key_of req := inner resp]> (default ∅ (cs !! cache))]> cs.

(** [cache.put(request, response)]: rejects with a TypeError what
    [put_accepts] refuses, and otherwise replaces the entry of the request. *)
Definition cache_put (cache : string) (req : Request) (resp : Response) : Js unit :=
  fun w =>
    if put_accepts req resp
    then (Normal tt, set_caches (store cache req resp) w)
    else (Throw PutUnsupported, w).

(** [cache.addAll(urls)]: fetches every URL; when every fetch gives an ok
    response that [cache.put] accepts, stores them all, and otherwise
    rejects and stores none. *)
Definition cache_addAll (net : Request -> option NetResponse) (base : URL)
    (cache : string) (urls : list string) : Js unit :=
  fun w =>
    let reqs := map (new_Request base) urls in
    let w1 := foldl (fun w r => emit (Fetched r) w) w reqs in
    match mapM (fun r => resp ← net r;
                         if ok (mkResponse resp Immutable)
                            && put_accepts r (mkResponse resp Immutable)
                         then Some (r, mkResponse resp Immutable) else None) reqs with
    | Some entries =>
        (Normal tt,
         set_caches (fun cs => foldl (fun cs e => store cache (fst e) (snd e) cs) cs entries) w1)
    | None => (Throw AddAllRejected, w1)
    end.

(** The entry a partition holds for a request (Service Workers:
    Cache.matchAll): none for a request that is not a [GET]; the [Response]
    handed out has Immutable headers. *)
Definition match_in (c : gmap string NetResponse) (req : Request) : option Response :=
  if String.eqb (method req) "GET"
  then (fun resp => mkResponse resp Immutable) <$> c !! key_of req
  else None.

Definition lookup_cache (cs : gmap string (gmap string NetResponse)) (cache : string)
    (req : Request) : option Response :=
  match_in (default ∅ (cs !! cache)) req.

(** [cache.match(request)]; [None] is [undefined]. *)
Definition cache_match (cache : string) (req : Request) : Js (option Response) :=
  fun w => (Normal (lookup_cache (caches w) cache req), w).

(** *** Headers and Response construction *)

Definition forbidden_response_header (name : string) : bool :=
  String.eqb (lower name) "set-cookie" || String.eqb (lower name) "set-cookie2".

(** [response.headers.append(name, value)] (Fetch standard: Headers
    append): a TypeError on Immutable headers. The response with the header
    appended stands for the mutated object. *)
Definition headers_append (r : Response) (name value : string) : Js Response :=
  match headers_guard r with
  | Immutable => throw HeadersImmutable
  | ResponseGuard =>
      if forbidden_response_header name then mret r
      else mret (with_headers (headers (inner r) ++ [(name, value)]) r)
  end.

Definition null_body_status (s : Z) : bool :=
  ((s =? 101) || (s =? 103) || (s =? 204) || (s =? 205) || (s =? 304))%Z.

(** [new Response(body, { status, statusText, headers })] for a string
    [body]: the status defaults to 200 and the status text to the empty
    string; a body without a [Content-Type] among the given headers gets
    the one of text. *)
Definition new_Response (b : string) (init_status : option Z)
    (init_statusText : option string) (init_headers : list (string * string)) : Js Response :=
  let s := default 200%Z init_status in
  if negb ((200 <=? s) && (s <=? 599))%Z || null_body_status s then throw BadStatus
  else
    let hs := filter (fun nv => forbidden_response_header (fst nv) = false) init_headers in
    let hs' := if headers_has "Content-Type" hs then hs
               else hs ++ [("content-type", "text/plain;charset=UTF-8")] in
    mret (mkResponse (mkNetResponse s (default EmptyString init_statusText) hs' b) ResponseGuard).

(** *** The worker's global scope, clients and notifications *)

(** [self.skipWaiting()]: sets the skip-waiting flag; a waiting worker whose
    flag is set is activated by the host. *)
Definition skipWaiting : Js unit :=
  fun w =>
    (Normal tt,
     mkWorld (caches w) (clients w)
             (match lifecycle w with Waiting => Active | l => l end)
             true (trace w ++ [SkipWaitingCalled])).

Definition clients_claim : Js unit := fun w => (Normal tt, emit ClientsClaimed w).

Definition clients_matchAll : Js (list string) := fun w => (Normal (clients w), w).

Definition client_postMessage (m : JValue) (c : string) : Js unit :=
  fun w => (Normal tt, emit (MessagePosted c m) w).

Definition clients_openWindow (target : string) : Js unit :=
  fun w => (Normal tt, emit (WindowOpened target) w).

Definition notification_close : Js unit :=
  fun w => (Normal tt, emit NotificationClosed w).

Definition showNotification (title : string) (o : NotificationOptions) : Js unit :=
  fun w => (Normal tt, emit (NotificationShown title o) w).

Definition sync_register (tag : string) : Js unit :=
  fun w => (Normal tt, emit (SyncRegistered tag) w).

(** A property read as a computation. *)
Definition prop (v : JValue) (k : string) : Js JValue :=
  match get_prop v k with
  | Some x => mret x
  | None => throw NullProperty
  end.

End Host.

(** ** The service worker *)

Module SW.
Import Text Json Host.

Definition CACHE_NAME : string := "pse-dashboard-v1".
Definition API_CACHE_NAME : string := "pse-api-cache-v1".

Definition STATIC_ASSETS : list string :=
  [ "/"
  ; "/index.html"
  ; "/manifest.json"
  ; "https://cdn.plot.ly/plotly-2.27.0.min.js"
  ].

(** The lines of the template literal of the offline page. *)
Definition offline_page_lines : list string :=
  [ EmptyString
  ; "                <!DOCTYPE html>"
  ; "                <html>"
  ; "                <head>"
  ; "                    <meta charset=" +:+ dq +:+ "UTF-8" +:+ dq +:+ ">"
  ; "                    <meta name=" +:+ dq +:+ "viewport" +:+ dq +:+ " content=" +:+ dq +:+ "width=device-width, initial-scale=1.0" +:+ dq +:+ ">"
  ; "                    <title>PSE Dashboard - Offline</title>"
  ; "                    <style>"
  ; "                        body {"
  ; "                            font-family: -apple-system, BlinkMacSystemFont, 'SF Pro Display', sans-serif;"
  ; "                            background: linear-gradient(135deg, #c0392b 0%, #e74c3c 100%);"
  ; "                            color: white;"
  ; "                            text-align: center;"
  ; "                            padding: 50px 20px;"
  ; "                            margin: 0;"
  ; "                            min-height: 100vh;"
  ; "                            display: flex;"
  ; "                            flex-direction: column;"
  ; "                            justify-content: center;"
  ; "                        }"
  ; "                        h1 { font-size: 24px; margin-bottom: 20px; }"
  ; "                        p { font-size: 16px; margin-bottom: 30px; opacity: 0.9; }"
  ; "                        button {"
  ; "                            background: white;"
  ; "                            color: #c0392b;"
  ; "                            border: none;"
  ; "                            padding: 12px 24px;"
  ; "                            border-radius: 8px;"
  ; "                            font-size: 16px;"
  ; "                            font-weight: 600;"
  ; "                            cursor: pointer;"
  ; "                        }"
  ; "                    </style>"
  ; "                </head>"
  ; "                <body>"
  ; "                    <h1>📱 PSE Dashboard</h1>"
  ; "                    <h2>🔌 Tryb Offline</h2>"
  ; "                    <p>Nie można połączyć się z internetem.<br>Sprawdź połączenie i spróbuj ponownie.</p>"
  ; "                    <button onclick=" +:+ dq +:+ "window.location.reload()" +:+ dq +:+ ">🔄 Spróbuj ponownie</button>"
  ; "                </body>"
  ; "                </html>"
  ; "            "
  ].

Definition offline_page : string :=
  match offline_page_lines with
  | [] => EmptyString
  | l :: ls => fold_left (fun acc x => acc +:+ lf +:+ x) ls l
  end.

(** The object serialised into the body of the API error response. *)
Definition api_error_payload : JValue :=
  JObject
    [ ("error", JString "Brak połączenia internetowego")
    ; ("message", JString "Nie można pobrać danych. Sprawdź połączenie internetowe.")
    ; ("cached", JBool false)
    ].

Section Worker.

(** The network, and the worker's own location. *)
Variable net : Request -> option NetResponse.
Variable location : URL.

(** Install event - cache static assets *)
Definition on_install : Js unit :=
  cache ← caches_open CACHE_NAME;
  _ ← cache_addAll net location cache STATIC_ASSETS;
  skipWaiting.

(** Activate event - clean up old caches *)
Definition on_activate : Js unit :=
  cacheNames ← caches_keys;
  _ ← for_each
        (fun cacheName =>
           if negb (String.eqb cacheName CACHE_NAME)
              && negb (String.eqb cacheName API_CACHE_NAME)
           then caches_delete cacheName
           else mret tt)
        cacheNames;
  clients_claim.

(** Handle API requests - network first, cache as fallback *)
Definition handleApiRequest (request : Request) : Js Response :=
  cache ← caches_open API_CACHE_NAME;
  try_catch
    (networkResponse ← fetch net request;
     _ ← (if ok networkResponse
          then cache_put cache request (clone networkResponse)
          else mret tt);
     mret networkResponse)
    (fun error =>
       cachedResponse ← cache_match cache request;
       match cachedResponse with
       | Some cachedResponse =>
           let response := clone cachedResponse in
           headers_append response "X-Served-From" "cache"
       | None =>
           new_Response
             (default EmptyString (stringify api_error_payload))
             (Some 503%Z) (Some "Service Unavailable")
             [ ("Content-Type", "application/json")
             ; ("X-Served-From", "error") ]
       end).

(** Handle static requests - cache first *)
Definition handleStaticRequest (request : Request) : Js Response :=
  cache ← caches_open CACHE_NAME;
  cachedResponse ← cache_match cache request;
  match cachedResponse with
  | Some cachedResponse => mret cachedResponse
  | None =>
      try_catch
        (networkResponse ← fetch net request;
         _ ← (if ok networkResponse
              then cache_put cache request (clone networkResponse)
              else mret tt);
         mret networkResponse)
        (fun error =>
           if String.eqb (destination request) "document"
           then new_Response offline_page None None [ ("Content-Type", "text/html") ]
           else new_Response "Service Unavailable" (Some 503%Z) None [])
  end.

(** Fetch event: the response [event.respondWith] is given. *)
Definition on_fetch (request : Request) : Js Response :=
  if String.eqb (hostname (url request)) "api.raporty.pse.pl"
  then handleApiRequest request
  else handleStaticRequest request.

(** Push notification event. [data] is [event.data]: [None] when the push
    has no payload, and otherwise what [event.data.json()] gives, [None]
    being its SyntaxError. *)
Definition on_push (data : option (option JValue)) : Js unit :=
  match data with
  | None => mret tt
  | Some None => throw JsonSyntax
  | Some (Some data) =>
      b ← prop data "body";
      u ← prop data "url";
      showNotification "PSE Dashboard"
        (mkOptions
           (to_string (js_or b (JString "Nowy alert rezerw mocy!")))
           "/apple-touch-icon-180x180.png"
           "/apple-touch-icon-180x180.png"
           [100; 50; 100]%Z
           (JObject [ ("url", js_or u (JString "/")) ])
           [ ("open", "Otwórz Dashboard"); ("close", "Zamknij") ])
  end.

(** Notification click event: [action] is [event.action] and [ndata] is
    [event.notification.data]. *)
Definition on_notificationclick (action : string) (ndata : JValue) : Js unit :=
  _ ← notification_close;
  if String.eqb action "open" || negb (truthy (JString action))
  then
    u ← prop ndata "url";
    clients_openWindow (to_string (js_or u (JString "/")))
  else mret tt.

(** Function to refresh data in background *)
Definition refreshDataInBackground : Js unit :=
  try_catch
    (response ← fetch net (new_Request location "https://api.raporty.pse.pl/api/pk5l-wp?$first=200");
     if ok response
     then
       cache ← caches_open API_CACHE_NAME;
       _ ← cache_put cache
             (new_Request location "https://api.raporty.pse.pl/api/pk5l-wp?$first=200")
             (clone response);
       clients ← clients_matchAll;
       for_each
         (client_postMessage
            (JObject [ ("type", JString "DATA_UPDATED")
                     ; ("message", JString "Dane zostały zaktualizowane w tle") ]))
         clients
     else mret tt)
    (fun error => mret tt).

(** Background sync event *)
Definition on_sync (tag : string) : Js unit :=
  if String.eqb tag "refresh-data" then refreshDataInBackground else mret tt.

(** Message event from main thread: [data] is [event.data]. *)
Definition on_message (data : JValue) : Js unit :=
  _ ← (if truthy data
       then t ← prop data "type";
            if strict_eq_string t "SKIP_WAITING" then skipWaiting else mret tt
       else mret tt);
  if truthy data
  then t ← prop data "type";
       if strict_eq_string t "REQUEST_UPDATE" then sync_register "refresh-data" else mret tt
  else mret tt.

End Worker.

End SW.

(** ** Observations on worlds and traces *)

Import Text Json Host SW.

(** The response a partition stores under a key. *)
Definition entry (w : World) (cache key : string) : option NetResponse :=
  caches w !! cache ≫= fun c => c !! key.

(** The requests fetched in a trace, oldest first. *)
Fixpoint fetches (t : list Effect) : list Request :=
  match t with
  | [] => []
  | Fetched r :: t' => r :: fetches t'
  | _ :: t' => fetches t'
  end.

Definition API_HOST : string := "api.raporty.pse.pl".

(** The request [fetch] and [cache.put] make of the URL string of the
    background refresh. *)
Definition refresh_request : Request :=
  mkRequest
    (mkURL "https://api.raporty.pse.pl/api/pk5l-wp?$first=200" "https" "api.raporty.pse.pl")
    "GET" EmptyString.

Definition DATA_UPDATED : JValue :=
  JObject [ ("type", JString "DATA_UPDATED")
          ; ("message", JString "Dane zostały zaktualizowane w tle") ].

(** [marker] occurs in [s]. *)
Definition occurs_in (marker s : string) : Prop :=
  exists pre post, s = pre +:+ marker +:+ post.

(** ** Sample inputs *)

Definition sample_world : World := mkWorld ∅ ["page-1"; "page-2"] Waiting false [].

Definition sample_location : URL :=
  mkURL "https://dashboard.example/sw.js" "https" "dashboard.example".

Definition sample_api_url : URL :=
  mkURL "https://api.raporty.pse.pl/api/pk5l-wp?$first=200" "https" "api.raporty.pse.pl".

Definition sample_api_get : Request := mkRequest sample_api_url "GET" EmptyString.

Definition sample_api_post : Request := mkRequest sample_api_url "POST" EmptyString.

Definition sample_document : Request :=
  mkRequest (mkURL "https://dashboard.example/" "https" "dashboard.example")
            "GET" "document".

Definition sample_ok : NetResponse :=
  mkNetResponse 200 "OK" [ ("Content-Type", "application/json") ] "[]".

Definition sample_not_found : NetResponse :=
  mkNetResponse 404 "Not Found" [ ("Content-Type", "text/plain") ] "not found".

Definition sample_vary_star : NetResponse :=
  mkNetResponse 200 "OK" [ ("Content-Type", "application/json"); ("Vary", "*") ] "[]".

Definition online (r : NetResponse) : Request -> option NetResponse := fun _ => Some r.

Definition offline : Request -> option NetResponse := fun _ => None.

(** A world whose API partition holds [sample_ok] for [sample_api_get], as
    [handleApiRequest] leaves it after a successful fetch. *)
Definition sample_world_cached : World :=
  snd (handleApiRequest (online sample_ok) sample_api_get sample_world).

(** The text [JSON.stringify] gives for [api_error_payload]. *)
Definition api_error_body : string :=
  "{" +:+ dq +:+ "error" +:+ dq +:+ ":" +:+ dq +:+ "Brak połączenia internetowego" +:+ dq
  +:+ "," +:+ dq +:+ "message" +:+ dq +:+ ":" +:+ dq
  +:+ "Nie można pobrać danych. Sprawdź połączenie internetowe." +:+ dq
  +:+ "," +:+ dq +:+ "cached" +:+ dq +:+ ":false}".

(** The member [cached: false] as it is written in a JSON text. *)
Definition cached_false : string := dq +:+ "cached" +:+ dq +:+ ":false".

(** A world with the partitions of an earlier version next to a current one. *)
Definition sample_world_old : World :=
  mkWorld
    (<["pse-dashboard-v0" := {["https://dashboard.example/" := sample_ok]}]>
       (<["pse-api-cache-v0" := ∅]>
          (<[CACHE_NAME := {["https://dashboard.example/" := sample_ok]}]> ∅)))
    ["page-1"] Waiting true [].

(** The test the activate listener applies to a partition name. *)
Definition outdated (cacheName : string) : bool :=
  negb (String.eqb cacheName CACHE_NAME) && negb (String.eqb cacheName API_CACHE_NAME).

(** [response.ok] of the [Response] made of a network response. *)
Definition net_ok (r : NetResponse) : bool := ok (mkResponse r Immutable).

(** Every entry of [w'] was already in [w] or holds an ok response. *)
Definition writes_only_ok (w w' : World) : Prop :=
  forall (cache key : string) (r : NetResponse),
    entry w' cache key = Some r -> entry w cache key = Some r \/ net_ok r = true.

(** The partitions of [w'] hold what those of [w] hold. *)
Definition same_entries (w w' : World) : Prop :=
  forall cache key : string, entry w' cache key = entry w cache key.

(** Every stored response is ok. *)
Definition all_ok (w : World) : Prop :=
  forall (cache key : string) (r : NetResponse),
    entry w cache key = Some r -> net_ok r = true.

(** ** Events

    An event the host dispatches to the worker, with the network as it is
    while the event is handled. *)
Inductive Event : Type :=
| InstallEvent (net : Request -> option NetResponse)
| ActivateEvent
| FetchEvent (net : Request -> option NetResponse) (request : Request)
| PushEvent (data : option (option JValue))
| NotificationClickEvent (action : string) (ndata : JValue)
| SyncEvent (net : Request -> option NetResponse) (tag : string)
| MessageEvent (data : JValue).

(** The world after the listener of an event has run, for a worker at
    [loc]. *)
Definition dispatch (loc : URL) (e : Event) (w : World) : World :=
  match e with
  | InstallEvent net => snd (on_install net loc w)
  | ActivateEvent => snd (on_activate w)
  | FetchEvent net request => snd (on_fetch net request w)
  | PushEvent data => snd (on_push data w)
  | NotificationClickEvent action ndata => snd (on_notificationclick action ndata w)
  | SyncEvent net tag => snd (on_sync net loc tag w)
  | MessageEvent data => snd (on_message data w)
  end.

(** The world after a sequence of events, oldest first. *)
Definition run (loc : URL) (events : list Event) (w : World) : World :=
  foldl (fun w e => dispatch loc e w) w events.

(** ** Further observations and sample inputs *)

(** The requests [cache.addAll] makes of [STATIC_ASSETS], for a worker at
    [loc]. *)
Definition asset_requests (loc : URL) : list Request :=
  map (new_Request loc) STATIC_ASSETS.

(** The network gives for the request an ok response that the cache
    accepts. *)
Definition precachable (net : Request -> option NetResponse) (req : Request) : bool :=
  match net req with
  | Some r => ok (mkResponse r Immutable) && put_accepts req (mkResponse r Immutable)
  | None => false
  end.

(** The cache storage holds no partition but the two current ones. *)
Definition only_current_partitions (w : World) : Prop :=
  forall name : string,
    is_Some (caches w !! name) -> name = CACHE_NAME \/ name = API_CACHE_NAME.

(** A form submission: a navigation with the method POST. *)
Definition sample_form_post : Request :=
  mkRequest (mkURL "https://dashboard.example/" "https" "dashboard.example")
            "POST" "document".

Definition sample_script : Request :=
  mkRequest (mkURL "https://dashboard.example/app.js" "https" "dashboard.example")
            "GET" "script".

(** ** The monad, step by step *)

Lemma bind_run {A B : Type} (m : Js A) (f : A -> Js B) (w : World) :
  ((m ≫= f) : Js B) w =
  match m w with
  | (Normal a, w') => f a w'
  | (Throw e, w') => (Throw e, w')
  end.
Proof. reflexivity. Qed.

Lemma ret_run {A : Type} (a : A) (w : World) : (mret a : Js A) w = (Normal a, w).
Proof. reflexivity. Qed.

Lemma try_catch_run {A : Type} (m : Js A) (h : Exn -> Js A) (w : World) :
  try_catch m h w =
  match m w with
  | (Normal a, w') => (Normal a, w')
  | (Throw e, w') => h e w'
  end.
Proof. reflexivity. Qed.

Ltac js_run :=
  repeat (rewrite ?bind_run, ?ret_run, ?try_catch_run; cbn beta iota).

(** ** Cache storage *)

Lemma entry_store (w : World) (cache : string) (req : Request) (resp : Response) :
  entry (set_caches (store cache req resp) w) cache (key_of req) = Some (inner resp).
Proof.
  unfold entry, set_caches, store. cbn [caches].
  rewrite lookup_insert_eq. cbn. by rewrite lookup_insert_eq.
Qed.

Lemma entry_caches_open (w : World) (name cache key : string) :
  entry (snd (caches_open name w)) cache key = entry w cache key.
Proof.
  unfold entry, caches_open, set_caches. cbn [snd caches].
  destruct (caches w !! name) as [p|] eqn:E; [reflexivity|].
  destruct (decide (name = cache)) as [->|Hne].
  - rewrite lookup_insert_eq, E. cbn. apply lookup_empty.
  - by rewrite lookup_insert_ne.
Qed.

Lemma lookup_cache_store (cs : gmap string (gmap string NetResponse))
    (cache : string) (req : Request) (resp : Response) :
  method req = "GET" ->
  lookup_cache (store cache req resp cs) cache req
  = Some (mkResponse (inner resp) Immutable).
Proof.
  intros Hm. unfold lookup_cache, store, match_in.
  rewrite lookup_insert_eq. cbn [default]. rewrite Hm. cbn.
  by rewrite lookup_insert_eq.
Qed.

Lemma put_accepts_GET (req : Request) (resp : Response) :
  put_accepts req resp = true -> method req = "GET".
Proof.
  unfold put_accepts. intros H.
  apply andb_prop in H as [H _]. apply andb_prop in H as [H _].
  apply andb_prop in H as [_ H]. by apply String.eqb_eq in H.
Qed.

(** ** API requests: network first *)

Lemma on_fetch_api (net : Request -> option NetResponse) (req : Request) :
  hostname (url req) = API_HOST -> on_fetch net req = handleApiRequest net req.
Proof. intros H. unfold on_fetch. rewrite H. reflexivity. Qed.

Lemma on_fetch_static (net : Request -> option NetResponse) (req : Request) :
  hostname (url req) <> API_HOST -> on_fetch net req = handleStaticRequest net req.
Proof.
  intros H. unfold on_fetch.
  destruct (String.eqb_spec (hostname (url req)) "api.raporty.pse.pl") as [E|E];
    [by destruct H | reflexivity].
Qed.

(** The run of [handleApiRequest] when the network answers with an ok
    response the cache accepts. *)
Lemma handleApiRequest_stored_run (net : Request -> option NetResponse)
    (req : Request) (w : World) (r : NetResponse) :
  net req = Some r ->
  ok (mkResponse r Immutable) = true ->
  put_accepts req (mkResponse r Immutable) = true ->
  handleApiRequest net req w
  = (Normal (mkResponse r Immutable),
     set_caches (store API_CACHE_NAME req (mkResponse r Immutable))
       (emit (Fetched req) (snd (caches_open API_CACHE_NAME w)))).
Proof.
  intros Hnet Hok Hput. unfold handleApiRequest. js_run.
  unfold caches_open at 1. cbn beta iota.
  unfold fetch at 1. rewrite Hnet. js_run.
  rewrite Hok. unfold clone, cache_put. rewrite Hput. js_run.
  reflexivity.
Qed.

(** C1, as amended: for every GET request over http or https to the external
    API host, when the network fetch succeeds with an ok status and the
    response is one the cache accepts (not a 206 and without [Vary: *]),
    [handleApiRequest] returns the live network response, having stored a
    clone of it in the API partition under the key of the request, where a
    later [match] of the same request finds it. *)
Theorem handleApiRequest_network_success (net : Request -> option NetResponse)
    (req : Request) (w : World) (r : NetResponse) :
  hostname (url req) = API_HOST ->
  net req = Some r ->
  ok (mkResponse r Immutable) = true ->
  put_accepts req (mkResponse r Immutable) = true ->
  on_fetch net req w = handleApiRequest net req w /\
  fst (handleApiRequest net req w) = Normal (mkResponse r Immutable) /\
  entry (snd (handleApiRequest net req w)) API_CACHE_NAME (key_of req) = Some r /\
  fst (cache_match API_CACHE_NAME req (snd (handleApiRequest net req w)))
  = Normal (Some (mkResponse r Immutable)).
Proof.
  intros Hhost Hnet Hok Hput.
  rewrite (on_fetch_api net req Hhost).
  rewrite (handleApiRequest_stored_run net req w r Hnet Hok Hput).
  cbn [fst snd]. repeat split.
  - apply (entry_store _ API_CACHE_NAME req (mkResponse r Immutable)).
  - unfold cache_match. cbn [fst]. f_equal.
    unfold set_caches at 1. cbn [caches].
    apply (lookup_cache_store _ API_CACHE_NAME req (mkResponse r Immutable)).
    by apply put_accepts_GET in Hput.
Qed.

Lemma handleApiRequest_network_success_witness :
  fst (handleApiRequest (online sample_ok) sample_api_get sample_world)
  = Normal (mkResponse sample_ok Immutable) /\
  entry (snd (handleApiRequest (online sample_ok) sample_api_get sample_world))
        API_CACHE_NAME (key_of sample_api_get) = Some sample_ok.
Proof.
  pose proof (handleApiRequest_network_success (online sample_ok) sample_api_get
                sample_world sample_ok eq_refl eq_refl eq_refl eq_refl)
    as (_ & Hres & Hentry & _).
  exact (conj Hres Hentry).
Defined.

(** C1, as stated, fails on a POST request: the network answers 200, the
    cache refuses the request, the refusal is caught as if the network had
    failed, and the caller gets the synthesized 503; nothing is stored. *)
Lemma handleApiRequest_post_not_echoed :
  hostname (url sample_api_post) = API_HOST /\
  online sample_ok sample_api_post = Some sample_ok /\
  ok (mkResponse sample_ok Immutable) = true /\
  fst (handleApiRequest (online sample_ok) sample_api_post sample_world)
  <> Normal (mkResponse sample_ok Immutable) /\
  entry (snd (handleApiRequest (online sample_ok) sample_api_post sample_world))
        API_CACHE_NAME (key_of sample_api_post) = None.
Proof.
  repeat split; try reflexivity.
  vm_compute. intros H. discriminate H.
Qed.

(** ** Occurrences in a text *)

Lemma starts_with_app (p s : string) :
  starts_with p s = true -> exists r, s = p +:+ r.
Proof.
  revert s. induction p as [|a p IH]; intros s H.
  - by exists s.
  - destruct s as [|b s]; [discriminate H|]. cbn in H.
    apply andb_prop in H as [Hab Hps].
    apply Ascii.eqb_eq in Hab as ->.
    destruct (IH s Hps) as [r ->]. by exists r.
Qed.

Lemma contains_occurs_in (marker s : string) :
  contains marker s = true -> occurs_in marker s.
Proof.
  induction s as [|c s IH]; intros H.
  - cbn in H. rewrite orb_false_r in H.
    destruct (starts_with_app _ _ H) as [r Hr].
    exists EmptyString, r. exact Hr.
  - cbn [contains] in H. apply orb_prop in H as [H|H].
    + destruct (starts_with_app _ _ H) as [r Hr].
      exists EmptyString, r. exact Hr.
    + destruct (IH H) as (pre & post & ->).
      by exists (String c pre), post.
Qed.

(** ** The fallbacks of [handleApiRequest] *)

Lemma lookup_cache_open (w : World) (name cache : string) (req : Request) :
  lookup_cache (caches (snd (caches_open name w))) cache req
  = lookup_cache (caches w) cache req.
Proof.
  unfold caches_open, lookup_cache, set_caches. cbn [snd caches].
  destruct (caches w !! name) as [c|] eqn:E; [reflexivity|].
  destruct (decide (name = cache)) as [->|Hne].
  - by rewrite lookup_insert_eq, E.
  - by rewrite lookup_insert_ne.
Qed.

Lemma lookup_cache_immutable (cs : gmap string (gmap string NetResponse))
    (cache : string) (req : Request) (c : Response) :
  lookup_cache cs cache req = Some c -> headers_guard c = Immutable.
Proof.
  unfold lookup_cache, match_in.
  destruct (String.eqb (method req) "GET"); [|discriminate].
  destruct (default ∅ (cs !! cache) !! key_of req); cbn; [|discriminate].
  by intros [= <-].
Qed.

(** When the network fails and the API partition holds a response for the
    request, the [append] on the headers of the cached response throws: the
    promise of [handleApiRequest] rejects. *)
Lemma handleApiRequest_offline_hit_throws (net : Request -> option NetResponse)
    (req : Request) (w : World) (c : Response) :
  net req = None ->
  lookup_cache (caches w) API_CACHE_NAME req = Some c ->
  fst (handleApiRequest net req w) = Throw HeadersImmutable.
Proof.
  intros Hnet Hc. unfold handleApiRequest. js_run.
  pose proof (lookup_cache_open w API_CACHE_NAME API_CACHE_NAME req) as Hopen.
  destruct (caches_open API_CACHE_NAME w) as [[cache|e] w1] eqn:Eopen;
    [|discriminate Eopen].
  injection Eopen as <- Ew1. cbn [snd] in Hopen.
  unfold fetch at 1. rewrite Hnet. js_run.
  unfold cache_match at 1. cbn [caches emit].
  rewrite Hopen, Hc. unfold clone, headers_append.
  by rewrite (lookup_cache_immutable _ _ _ _ Hc).
Qed.

(** C3 on the code: the network is down and the API partition holds the
    response of an earlier successful fetch of the same request;
    [handleApiRequest] does not return the cached response with the header
    [X-Served-From: cache], it throws the TypeError of appending to
    immutable headers. *)
Theorem handleApiRequest_cached_fallback_throws :
  offline sample_api_get = None /\
  fst (cache_match API_CACHE_NAME sample_api_get sample_world_cached)
  = Normal (Some (mkResponse sample_ok Immutable)) /\
  fst (handleApiRequest offline sample_api_get sample_world_cached)
  = Throw HeadersImmutable.
Proof.
  split; [reflexivity|]. split; [reflexivity|].
  apply (handleApiRequest_offline_hit_throws offline sample_api_get
           sample_world_cached (mkResponse sample_ok Immutable));
    reflexivity.
Qed.

(** C4: for every request to the external API host, when the network fetch
    fails and the API partition has no response for the request,
    [handleApiRequest] returns a response made in the worker, of status 503,
    whose body is the JSON text of the fixed bilingual payload, with the
    member [cached: false], and whose content type is JSON. *)
Theorem handleApiRequest_offline_miss (net : Request -> option NetResponse)
    (req : Request) (w : World) :
  hostname (url req) = API_HOST ->
  net req = None ->
  lookup_cache (caches w) API_CACHE_NAME req = None ->
  exists resp : Response,
    on_fetch net req w = handleApiRequest net req w /\
    fst (handleApiRequest net req w) = Normal resp /\
    status (inner resp) = 503%Z /\
    statusText (inner resp) = "Service Unavailable" /\
    stringify api_error_payload = Some (body (inner resp)) /\
    get_prop api_error_payload "cached" = Some (JBool false) /\
    body (inner resp) = api_error_body /\
    occurs_in cached_false (body (inner resp)) /\
    headers_get "Content-Type" (headers (inner resp)) = Some "application/json" /\
    headers_get "X-Served-From" (headers (inner resp)) = Some "error".
Proof.
  intros Hhost Hnet Hmiss.
  exists (mkResponse
            (mkNetResponse 503 "Service Unavailable"
               [ ("Content-Type", "application/json"); ("X-Served-From", "error") ]
               api_error_body)
            ResponseGuard).
  split; [by rewrite (on_fetch_api net req Hhost)|].
  split.
  - unfold handleApiRequest. js_run.
    pose proof (lookup_cache_open w API_CACHE_NAME API_CACHE_NAME req) as Hopen.
    destruct (caches_open API_CACHE_NAME w) as [[cache|e] w1] eqn:Eopen;
      [|discriminate Eopen].
    injection Eopen as <- Ew1. cbn [snd] in Hopen.
    unfold fetch at 1. rewrite Hnet. js_run.
    unfold cache_match at 1. cbn [caches emit].
    rewrite Hopen, Hmiss. reflexivity.
  - cbn [inner status statusText body headers].
    repeat split; try reflexivity.
    apply contains_occurs_in. vm_compute. reflexivity.
Qed.

Lemma handleApiRequest_offline_miss_witness :
  exists resp : Response,
    fst (handleApiRequest offline sample_api_get sample_world) = Normal resp /\
    status (inner resp) = 503%Z /\
    occurs_in cached_false (body (inner resp)).
Proof.
  destruct (handleApiRequest_offline_miss offline sample_api_get sample_world
              eq_refl eq_refl eq_refl)
    as (resp & _ & Hres & Hstatus & _ & _ & _ & _ & Hocc & _).
  exists resp. exact (conj Hres (conj Hstatus Hocc)).
Defined.

(** ** Static requests: cache first *)

Lemma lookup_cache_partition (cs : gmap string (gmap string NetResponse))
    (cache : string) (req : Request) (c : Response) :
  lookup_cache cs cache req = Some c -> is_Some (cs !! cache).
Proof.
  unfold lookup_cache, match_in. destruct (cs !! cache) as [p|]; [eauto|].
  cbn [default]. destruct (String.eqb (method req) "GET"); [|discriminate].
  by rewrite lookup_empty.
Qed.

Lemma caches_open_existing (w : World) (name : string) :
  is_Some (caches w !! name) -> caches_open name w = (Normal name, w).
Proof.
  intros [p Hp]. unfold caches_open, set_caches. rewrite Hp. by destruct w.
Qed.

(** C2: for every request that [handleStaticRequest] handles, and so for
    every request not routed to the API host, when the static partition
    holds a response for the request, the handler returns that response
    and leaves the world as it was: no fetch is made. *)
Theorem handleStaticRequest_cache_hit (net : Request -> option NetResponse)
    (req : Request) (w : World) (c : Response) :
  lookup_cache (caches w) CACHE_NAME req = Some c ->
  handleStaticRequest net req w = (Normal c, w) /\
  fetches (trace (snd (handleStaticRequest net req w))) = fetches (trace w) /\
  (hostname (url req) <> API_HOST -> on_fetch net req w = (Normal c, w)).
Proof.
  intros Hhit.
  assert (handleStaticRequest net req w = (Normal c, w)) as Hrun.
  { unfold handleStaticRequest. js_run.
    rewrite (caches_open_existing w CACHE_NAME (lookup_cache_partition _ _ _ _ Hhit)).
    js_run. unfold cache_match at 1. by rewrite Hhit. }
  split; [exact Hrun|]. split; [by rewrite Hrun|].
  intros Hhost. by rewrite (on_fetch_static net req Hhost).
Qed.

Lemma handleStaticRequest_cache_hit_witness :
  handleStaticRequest offline sample_document
    (snd (handleStaticRequest (online sample_ok) sample_document sample_world))
  = (Normal (mkResponse sample_ok Immutable),
     snd (handleStaticRequest (online sample_ok) sample_document sample_world)).
Proof.
  exact (proj1 (handleStaticRequest_cache_hit offline sample_document
                  (snd (handleStaticRequest (online sample_ok) sample_document sample_world))
                  (mkResponse sample_ok Immutable) eq_refl)).
Defined.

(** The run of [handleStaticRequest] on a miss with the network down. *)
Lemma handleStaticRequest_offline_run (net : Request -> option NetResponse)
    (req : Request) (w : World) :
  lookup_cache (caches w) CACHE_NAME req = None ->
  net req = None ->
  handleStaticRequest net req w
  = (if String.eqb (destination req) "document"
     then new_Response offline_page None None [ ("Content-Type", "text/html") ]
     else new_Response "Service Unavailable" (Some 503%Z) None [])
      (emit (Fetched req) (snd (caches_open CACHE_NAME w))).
Proof.
  intros Hmiss Hnet. unfold handleStaticRequest. js_run.
  pose proof (lookup_cache_open w CACHE_NAME CACHE_NAME req) as Hopen.
  destruct (caches_open CACHE_NAME w) as [[cache|e] w1] eqn:Eopen;
    [|discriminate Eopen].
  injection Eopen as <- Ew1. cbn [snd] in Hopen |- *.
  unfold cache_match at 1. js_run. rewrite Hopen, Hmiss. js_run.
  unfold fetch at 1. rewrite Hnet. reflexivity.
Qed.

(** C6: for every request with destination [document] that misses the
    static partition and whose network fetch fails, [handleStaticRequest]
    returns a response whose body is the fixed offline page, which carries
    the title "PSE Dashboard - Offline" and the other markers of the page,
    and whose content type is [text/html]. *)
Theorem handleStaticRequest_offline_document (net : Request -> option NetResponse)
    (req : Request) (w : World) :
  destination req = "document" ->
  lookup_cache (caches w) CACHE_NAME req = None ->
  net req = None ->
  exists resp : Response,
    fst (handleStaticRequest net req w) = Normal resp /\
    body (inner resp) = offline_page /\
    occurs_in "<title>PSE Dashboard - Offline</title>" (body (inner resp)) /\
    occurs_in "Tryb Offline" (body (inner resp)) /\
    occurs_in "window.location.reload()" (body (inner resp)) /\
    headers_get "Content-Type" (headers (inner resp)) = Some "text/html" /\
    status (inner resp) = 200%Z.
Proof.
  intros Hdoc Hmiss Hnet.
  exists (mkResponse
            (mkNetResponse 200 EmptyString [ ("Content-Type", "text/html") ] offline_page)
            ResponseGuard).
  split.
  - rewrite (handleStaticRequest_offline_run net req w Hmiss Hnet), Hdoc.
    reflexivity.
  - cbn [inner body headers status].
    repeat split; try reflexivity;
      apply contains_occurs_in; vm_compute; reflexivity.
Qed.

Lemma handleStaticRequest_offline_document_witness :
  exists resp : Response,
    fst (handleStaticRequest offline sample_document sample_world) = Normal resp /\
    occurs_in "<title>PSE Dashboard - Offline</title>" (body (inner resp)) /\
    headers_get "Content-Type" (headers (inner resp)) = Some "text/html".
Proof.
  destruct (handleStaticRequest_offline_document offline sample_document sample_world
              eq_refl eq_refl eq_refl)
    as (resp & Hres & _ & Htitle & _ & _ & Htype & _).
  exists resp. exact (conj Hres (conj Htitle Htype)).
Defined.

(** ** Activation: the partitions of earlier versions are deleted *)

Lemma outdated_true (name : string) :
  outdated name = true <-> name <> CACHE_NAME /\ name <> API_CACHE_NAME.
Proof.
  unfold outdated.
  destruct (String.eqb_spec name CACHE_NAME), (String.eqb_spec name API_CACHE_NAME);
    cbn; intuition congruence.
Qed.

(** The loop of deletions over a list of names: it completes, touches
    nothing but the cache storage, and there removes exactly the outdated
    names of the list. *)
Lemma for_each_delete_outdated (l : list string) (w : World) :
  exists w' : World,
    for_each (fun cacheName =>
                if negb (String.eqb cacheName CACHE_NAME)
                   && negb (String.eqb cacheName API_CACHE_NAME)
                then caches_delete cacheName
                else mret tt) l w = (Normal tt, w') /\
    clients w' = clients w /\
    lifecycle w' = lifecycle w /\
    skip_waiting_flag w' = skip_waiting_flag w /\
    trace w' = trace w /\
    (forall name, outdated name = true -> name ∈ l -> caches w' !! name = None) /\
    (forall name, outdated name = false -> caches w' !! name = caches w !! name) /\
    (forall name, caches w !! name = None -> caches w' !! name = None).
Proof.
  revert w. induction l as [|x l IH]; intros w.
  - exists w. repeat split; try reflexivity; try done.
    intros name _ Hin. by apply elem_of_nil in Hin.
  - cbn [for_each]. js_run. fold (outdated x).
    destruct (outdated x) eqn:Ex.
    + unfold caches_delete at 1. cbn beta iota.
      destruct (IH (set_caches (delete x) w))
        as (w' & Hrun & Hc & Hl & Hs & Ht & Hdel & Hkeep & Hnone).
      exists w'. rewrite Hrun.
      repeat split; try assumption.
      * intros name Hold Hin. apply elem_of_cons in Hin as [->|Hin].
        -- apply Hnone. unfold set_caches. cbn [caches]. apply lookup_delete_eq.
        -- by apply Hdel.
      * intros name Hnew. rewrite (Hkeep name Hnew).
        unfold set_caches. cbn [caches]. apply lookup_delete_ne.
        intros ->. congruence.
      * intros name Hn. apply Hnone. unfold set_caches. cbn [caches].
        destruct (decide (x = name)) as [->|Hne].
        -- apply lookup_delete_eq.
        -- by rewrite lookup_delete_ne.
    + js_run.
      destruct (IH w) as (w' & Hrun & Hc & Hl & Hs & Ht & Hdel & Hkeep & Hnone).
      exists w'. rewrite Hrun.
      repeat split; try assumption.
      intros name Hold Hin. apply elem_of_cons in Hin as [->|Hin].
      * congruence.
      * by apply Hdel.
Qed.

(** The run of the activate listener. *)
Lemma on_activate_run (w : World) :
  exists w' : World,
    on_activate w = (Normal tt, emit ClientsClaimed w') /\
    trace w' = trace w /\
    (forall name, is_Some (caches w !! name) -> outdated name = true ->
                  caches w' !! name = None) /\
    (forall name, outdated name = false -> caches w' !! name = caches w !! name) /\
    (forall name, caches w !! name = None -> caches w' !! name = None).
Proof.
  destruct (for_each_delete_outdated (elements (dom (caches w))) w)
    as (w' & Hrun & Hc & Hl & Hs & Ht & Hdel & Hkeep & Hnone).
  exists w'. split; [|split; [exact Ht|split; [|split; [exact Hkeep|exact Hnone]]]].
  - unfold on_activate. js_run. unfold caches_keys at 1. js_run.
    rewrite Hrun. reflexivity.
  - intros name Hsome Hold. apply Hdel; [exact Hold|].
    by apply elem_of_elements, elem_of_dom.
Qed.

(** C5: the activate listener completes; every partition that existed when
    it ran and whose name is neither [pse-dashboard-v1] nor
    [pse-api-cache-v1] has been deleted; the partitions of these two names
    are as they were; so no partition but these two remains. The listener
    then claims the clients. *)
Theorem on_activate_keeps_current_only (w : World) :
  fst (on_activate w) = Normal tt /\
  (forall name : string,
     is_Some (caches w !! name) ->
     name <> "pse-dashboard-v1" -> name <> "pse-api-cache-v1" ->
     caches (snd (on_activate w)) !! name = None) /\
  (forall name : string,
     name = "pse-dashboard-v1" \/ name = "pse-api-cache-v1" ->
     caches (snd (on_activate w)) !! name = caches w !! name) /\
  (forall name : string,
     is_Some (caches (snd (on_activate w)) !! name) ->
     name = "pse-dashboard-v1" \/ name = "pse-api-cache-v1") /\
  trace (snd (on_activate w)) = trace w ++ [ClientsClaimed].
Proof.
  destruct (on_activate_run w) as (w' & -> & Ht & Hgone & Hkeep & Hnone).
  cbn [fst snd emit caches trace].
  repeat split.
  - intros name Hsome H1 H2. apply Hgone; [exact Hsome|].
    by apply outdated_true.
  - intros name Hname. apply Hkeep.
    destruct (outdated name) eqn:E; [|reflexivity].
    apply outdated_true in E as [E1 E2]. by destruct Hname.
  - intros name Hsome.
    destruct (outdated name) eqn:E.
    + destruct (caches w !! name) as [p|] eqn:Ew.
      * rewrite (Hgone name) in Hsome; [by destruct Hsome| by rewrite Ew |exact E].
      * rewrite (Hnone name Ew) in Hsome. by destruct Hsome.
    + unfold outdated in E.
      destruct (String.eqb_spec name CACHE_NAME) as [->|]; [by left|].
      destruct (String.eqb_spec name API_CACHE_NAME) as [->|]; [by right|].
      discriminate E.
  - by rewrite Ht.
Qed.

Lemma on_activate_keeps_current_only_witness :
  caches (snd (on_activate sample_world_old)) !! "pse-dashboard-v0" = None /\
  caches (snd (on_activate sample_world_old)) !! "pse-api-cache-v0" = None /\
  caches (snd (on_activate sample_world_old)) !! "pse-dashboard-v1"
  = caches sample_world_old !! "pse-dashboard-v1".
Proof.
  destruct (on_activate_keeps_current_only sample_world_old)
    as (_ & Hgone & Hkept & _ & _).
  split; [|split].
  - apply Hgone; [by eexists | discriminate | discriminate].
  - apply Hgone; [by eexists | discriminate | discriminate].
  - apply Hkept. by left.
Defined.

(** ** Background sync *)

Lemma new_Request_refresh (loc : URL) :
  new_Request loc "https://api.raporty.pse.pl/api/pk5l-wp?$first=200" = refresh_request.
Proof. reflexivity. Qed.

Lemma fetches_app (t1 t2 : list Effect) :
  fetches (t1 ++ t2) = fetches t1 ++ fetches t2.
Proof.
  induction t1 as [|e t1 IH]; [reflexivity|].
  destruct e; cbn; by rewrite ?IH.
Qed.

Lemma fetches_posted (m : JValue) (l : list string) :
  fetches (map (fun c => MessagePosted c m) l) = [].
Proof. by induction l. Qed.

(** Posting a message to each client of a list. *)
Lemma for_each_postMessage (m : JValue) (l : list string) (w : World) :
  for_each (client_postMessage m) l w
  = (Normal tt,
     mkWorld (caches w) (clients w) (lifecycle w) (skip_waiting_flag w)
             (trace w ++ map (fun c => MessagePosted c m) l)).
Proof.
  revert w. induction l as [|c l IH]; intros w.
  - cbn. rewrite app_nil_r. by destruct w.
  - cbn [for_each]. js_run. unfold client_postMessage at 1. cbn beta iota.
    rewrite IH. unfold emit. cbn [caches clients lifecycle skip_waiting_flag trace map].
    by rewrite <- app_assoc.
Qed.

(** The run of [refreshDataInBackground], by the answer of the network. *)
Lemma refreshDataInBackground_run (net : Request -> option NetResponse)
    (loc : URL) (w : World) :
  refreshDataInBackground net loc w =
  match net refresh_request with
  | None => (Normal tt, emit (Fetched refresh_request) w)
  | Some r =>
      if ok (mkResponse r Immutable)
      then
        if put_accepts refresh_request (mkResponse r Immutable)
        then
          (Normal tt,
           mkWorld
             (store API_CACHE_NAME refresh_request (mkResponse r Immutable)
                (caches (snd (caches_open API_CACHE_NAME w))))
             (clients w) (lifecycle w) (skip_waiting_flag w)
             (trace w ++ Fetched refresh_request
                :: map (fun c => MessagePosted c DATA_UPDATED) (clients w)))
        else
          (Normal tt, emit (Fetched refresh_request) (snd (caches_open API_CACHE_NAME w)))
      else (Normal tt, emit (Fetched refresh_request) w)
  end.
Proof.
  unfold refreshDataInBackground. rewrite new_Request_refresh. js_run.
  unfold fetch at 1.
  destruct (net refresh_request) as [r|]; [|reflexivity].
  js_run. destruct (ok (mkResponse r Immutable)); [|reflexivity].
  js_run. unfold caches_open at 1. cbn beta iota.
  unfold clone, cache_put at 1.
  destruct (put_accepts refresh_request (mkResponse r Immutable)); [|reflexivity].
  js_run. unfold clients_matchAll at 1. cbn beta iota.
  rewrite for_each_postMessage. cbn [fst snd]. f_equal.
  unfold set_caches, emit, caches_open.
  cbn [caches clients lifecycle skip_waiting_flag trace snd].
  by rewrite <- app_assoc.
Qed.

(** C7, as amended: on a sync event tagged [refresh-data] the listener
    makes exactly one fetch, of the fixed endpoint, and never throws. When
    the fetch succeeds with an ok status and the cache accepts the response
    (not a 206 and without [Vary: *]), the response is stored in the API
    partition under the fixed key and a [DATA_UPDATED] message is posted to
    every client. When the fetch fails, or succeeds with an ok status but
    the cache refuses the response, the failure is swallowed: no entry of
    any partition changes and nothing is posted. *)
Theorem on_sync_refresh_data (net : Request -> option NetResponse)
    (loc : URL) (w : World) :
  fst (on_sync net loc "refresh-data" w) = Normal tt /\
  fetches (trace (snd (on_sync net loc "refresh-data" w)))
  = fetches (trace w) ++ [refresh_request] /\
  (forall r : NetResponse,
     net refresh_request = Some r ->
     ok (mkResponse r Immutable) = true ->
     put_accepts refresh_request (mkResponse r Immutable) = true ->
     entry (snd (on_sync net loc "refresh-data" w)) API_CACHE_NAME
           "https://api.raporty.pse.pl/api/pk5l-wp?$first=200" = Some r /\
     trace (snd (on_sync net loc "refresh-data" w))
     = trace w ++ Fetched refresh_request
         :: map (fun c => MessagePosted c DATA_UPDATED) (clients w)) /\
  (forall r : NetResponse,
     net refresh_request = Some r ->
     ok (mkResponse r Immutable) = true ->
     put_accepts refresh_request (mkResponse r Immutable) = false ->
     same_entries w (snd (on_sync net loc "refresh-data" w)) /\
     trace (snd (on_sync net loc "refresh-data" w))
     = trace w ++ [Fetched refresh_request]) /\
  (net refresh_request = None ->
   same_entries w (snd (on_sync net loc "refresh-data" w)) /\
   trace (snd (on_sync net loc "refresh-data" w))
   = trace w ++ [Fetched refresh_request] /\
   snd (on_sync net loc "refresh-data" w) = emit (Fetched refresh_request) w).
Proof.
  assert (on_sync net loc "refresh-data" w = refreshDataInBackground net loc w)
    as -> by reflexivity.
  rewrite refreshDataInBackground_run.
  split; [|split; [|split; [|split]]].
  - by destruct (net refresh_request) as [r|];
      [destruct (ok (mkResponse r Immutable)),
                (put_accepts refresh_request (mkResponse r Immutable))|].
  - destruct (net refresh_request) as [r|];
      [destruct (ok (mkResponse r Immutable)),
                (put_accepts refresh_request (mkResponse r Immutable))|];
      cbn [snd trace emit caches_open set_caches];
      rewrite ?fetches_app; cbn [fetches]; rewrite ?fetches_posted; reflexivity.
  - intros r Hnet Hok Hput. rewrite Hnet, Hok, Hput. cbn [snd trace]. split.
    + unfold entry, store. cbn [caches].
      rewrite lookup_insert_eq. cbn. apply lookup_insert_eq.
    + reflexivity.
  - intros r Hnet Hok Hput. rewrite Hnet, Hok, Hput. cbn [snd]. split.
    + intros cache key. apply (entry_caches_open w API_CACHE_NAME cache key).
    + reflexivity.
  - intros ->. cbn [snd]. split; [|split]; [|reflexivity|reflexivity].
    intros cache key. reflexivity.
Qed.

Lemma on_sync_refresh_data_witness :
  entry (snd (on_sync (online sample_ok) sample_location "refresh-data" sample_world))
        API_CACHE_NAME "https://api.raporty.pse.pl/api/pk5l-wp?$first=200"
  = Some sample_ok /\
  trace (snd (on_sync (online sample_ok) sample_location "refresh-data" sample_world))
  = [ Fetched refresh_request
    ; MessagePosted "page-1" DATA_UPDATED
    ; MessagePosted "page-2" DATA_UPDATED ] /\
  trace (snd (on_sync (online (mkNetResponse 206 "Partial Content" [] "[]"))
                sample_location "refresh-data" sample_world))
  = [ Fetched refresh_request ] /\
  snd (on_sync offline sample_location "refresh-data" sample_world)
  = emit (Fetched refresh_request) sample_world.
Proof.
  destruct (on_sync_refresh_data (online sample_ok) sample_location sample_world)
    as (_ & _ & Hstored & _).
  destruct (Hstored sample_ok eq_refl eq_refl eq_refl) as [Hentry Htrace].
  destruct (on_sync_refresh_data (online (mkNetResponse 206 "Partial Content" [] "[]"))
              sample_location sample_world)
    as (_ & _ & _ & Hrefused & _).
  destruct (Hrefused (mkNetResponse 206 "Partial Content" [] "[]")
              eq_refl eq_refl eq_refl) as [_ Hquiet].
  destruct (on_sync_refresh_data offline sample_location sample_world)
    as (_ & _ & _ & _ & Hfail).
  destruct (Hfail eq_refl) as (_ & _ & Hworld).
  exact (conj Hentry (conj Htrace (conj Hquiet Hworld))).
Defined.

(** C7, as stated, fails when the endpoint answers 200 with [Vary: *]: the
    fetch succeeded with an ok status, the cache refuses the response, the
    refusal is swallowed, and nothing is stored or posted. *)
Lemma on_sync_refused_response_not_stored :
  online sample_vary_star refresh_request = Some sample_vary_star /\
  ok (mkResponse sample_vary_star Immutable) = true /\
  clients sample_world = ["page-1"; "page-2"] /\
  entry (snd (on_sync (online sample_vary_star) sample_location "refresh-data" sample_world))
        API_CACHE_NAME "https://api.raporty.pse.pl/api/pk5l-wp?$first=200" = None /\
  trace (snd (on_sync (online sample_vary_star) sample_location "refresh-data" sample_world))
  = [ Fetched refresh_request ].
Proof. repeat split; reflexivity. Qed.

(** ** Notification clicks *)




(** ** Messages from pages *)

Lemma strict_eq_string_true (t : JValue) (s : string) :
  strict_eq_string t s = true <-> t = JString s.
Proof.
  destruct t; cbn; try (split; [discriminate | discriminate]).
  rewrite String.eqb_eq. split; [by intros -> | by intros [= ->]].
Qed.

(** C9: for every message whose data has the type [SKIP_WAITING], the
    listener calls [skipWaiting], which sets the skip-waiting flag and makes
    a waiting worker the active one. A message of type [REQUEST_UPDATE]
    registers the sync [refresh-data] and does not call [skipWaiting]; nor
    does any other message: the life cycle and the flag stay as they were. *)
Theorem on_message_skip_waiting (data : JValue) (w : World) :
  (get_prop data "type" = Some (JString "SKIP_WAITING") ->
   on_message data w = skipWaiting w /\
   trace (snd (on_message data w)) = trace w ++ [SkipWaitingCalled] /\
   skip_waiting_flag (snd (on_message data w)) = true /\
   (lifecycle w = Waiting -> lifecycle (snd (on_message data w)) = Active)) /\
  (get_prop data "type" = Some (JString "REQUEST_UPDATE") ->
   on_message data w = (Normal tt, emit (SyncRegistered "refresh-data") w)) /\
  (~ (truthy data = true /\ get_prop data "type" = Some (JString "SKIP_WAITING")) ->
   lifecycle (snd (on_message data w)) = lifecycle w /\
   skip_waiting_flag (snd (on_message data w)) = skip_waiting_flag w /\
   ~ SkipWaitingCalled ∈ drop (length (trace w)) (trace (snd (on_message data w)))).
Proof.
  split; [|split].
  - intros Htype.
    assert (on_message data w = skipWaiting w) as Hrun.
    { destruct data as [| |b|s|fs]; try discriminate Htype.
      unfold on_message. cbn [truthy]. js_run. unfold prop. rewrite Htype. js_run.
      cbn [strict_eq_string String.eqb Ascii.eqb Bool.eqb].
      reflexivity. }
    rewrite Hrun. unfold skipWaiting. cbn [snd trace skip_waiting_flag lifecycle].
    repeat split. by intros ->.
  - intros Htype.
    destruct data as [| |b|s|fs]; try discriminate Htype.
    unfold on_message. cbn [truthy]. js_run. unfold prop. rewrite Htype. js_run.
    reflexivity.
  - intros Hnot. unfold on_message.
    destruct (truthy data) eqn:Htruthy.
    + destruct (get_prop data "type") as [t|] eqn:Htype.
      * js_run. unfold prop. rewrite Htype. js_run.
        destruct (strict_eq_string t "SKIP_WAITING") eqn:Hskip.
        { apply strict_eq_string_true in Hskip as ->. by destruct Hnot. }
        js_run.
        destruct (strict_eq_string t "REQUEST_UPDATE").
        -- unfold sync_register, emit. cbn [snd lifecycle skip_waiting_flag trace].
           repeat split. rewrite drop_app_length.
           intros Hin. apply list_elem_of_singleton in Hin. discriminate Hin.
        -- js_run. cbn [snd]. repeat split.
           rewrite drop_all. apply not_elem_of_nil.
      * destruct data; discriminate.
    + js_run. cbn [snd]. repeat split.
      rewrite drop_all. apply not_elem_of_nil.
Qed.

Lemma on_message_skip_waiting_witness :
  lifecycle sample_world = Waiting /\
  lifecycle (snd (on_message (JObject [ ("type", JString "SKIP_WAITING") ]) sample_world))
  = Active /\
  lifecycle (snd (on_message (JObject [ ("type", JString "REQUEST_UPDATE") ]) sample_world))
  = Waiting.
Proof.
  split; [reflexivity|]. split.
  - destruct (proj1 (on_message_skip_waiting
                       (JObject [ ("type", JString "SKIP_WAITING") ]) sample_world)
                    eq_refl) as (_ & _ & _ & Hactive).
    exact (Hactive eq_refl).
  - destruct (proj2 (proj2 (on_message_skip_waiting
                       (JObject [ ("type", JString "REQUEST_UPDATE") ]) sample_world)))
      as (Hlife & _).
    + intros [_ Htype]. discriminate Htype.
    + exact Hlife.
Defined.

(** ** Only ok responses are stored *)

Lemma entry_store_inv (w : World) (name cache key : string) (req : Request)
    (resp : Response) (r : NetResponse) :
  entry (set_caches (store name req resp) w) cache key = Some r ->
  r = inner resp \/ entry w cache key = Some r.
Proof.
  unfold entry, set_caches, store. cbn [caches].
  destruct (decide (name = cache)) as [->|Hne].
  - rewrite lookup_insert_eq. cbn.
    destruct (decide (key_of req = key)) as [->|Hk].
    + rewrite lookup_insert_eq. intros [= <-]. by left.
    + rewrite lookup_insert_ne by done. intros H. right.
      destruct (caches w !! cache) as [p|]; cbn in *; [exact H|].
      by rewrite lookup_empty in H.
  - rewrite lookup_insert_ne by done. by right.
Qed.

Lemma same_entries_writes_only_ok (w w' : World) :
  same_entries w w' -> writes_only_ok w w'.
Proof. intros H cache key r Hr. left. by rewrite <- H. Qed.

Lemma same_entries_fetched_open (w : World) (name : string) (req : Request) :
  same_entries w (emit (Fetched req) (snd (caches_open name w))).
Proof. intros cache key. apply (entry_caches_open w name cache key). Qed.

Lemma stored_writes_only_ok (w : World) (name : string) (req : Request)
    (r : NetResponse) :
  net_ok r = true ->
  writes_only_ok w
    (set_caches (store name req (mkResponse r Immutable))
       (emit (Fetched req) (snd (caches_open name w)))).
Proof.
  intros Hok cache key r' Hr'.
  apply entry_store_inv in Hr' as [-> | Hr']; [by right|].
  left. by rewrite (same_entries_fetched_open w name req cache key) in Hr'.
Qed.

Lemma snd_new_Response (b : string) (st : option Z) (tx : option string)
    (hs : list (string * string)) (w : World) :
  snd (new_Response b st tx hs w) = w.
Proof.
  unfold new_Response.
  by destruct (negb ((200 <=? default 200 st) && (default 200 st <=? 599))%Z
               || null_body_status (default 200%Z st)).
Qed.

Lemma snd_headers_append (r : Response) (name value : string) (w : World) :
  snd (headers_append r name value w) = w.
Proof.
  unfold headers_append.
  destruct (headers_guard r); [reflexivity|].
  by destruct (forbidden_response_header name).
Qed.

(** The world [handleApiRequest] leaves: the partition is open and the
    fetch is in the trace; a response is stored only if the network gave it
    and it is ok. *)
Lemma handleApiRequest_world (net : Request -> option NetResponse)
    (req : Request) (w : World) :
  snd (handleApiRequest net req w)
  = emit (Fetched req) (snd (caches_open API_CACHE_NAME w)) \/
  exists r : NetResponse,
    net req = Some r /\ net_ok r = true /\
    snd (handleApiRequest net req w)
    = set_caches (store API_CACHE_NAME req (mkResponse r Immutable))
        (emit (Fetched req) (snd (caches_open API_CACHE_NAME w))).
Proof.
  destruct (net req) as [r|] eqn:Hnet.
  - destruct (net_ok r) eqn:Hok.
    + destruct (put_accepts req (mkResponse r Immutable)) eqn:Hput.
      * right. exists r.
        by rewrite (handleApiRequest_stored_run net req w r Hnet Hok Hput).
      * left. unfold handleApiRequest. js_run. unfold caches_open at 1.
        cbn beta iota. unfold fetch at 1. rewrite Hnet. js_run.
        unfold net_ok in Hok. rewrite Hok. unfold clone, cache_put at 1.
        rewrite Hput. js_run. unfold cache_match at 1. cbn beta iota.
        destruct (lookup_cache _ API_CACHE_NAME req) as [c|].
        -- apply snd_headers_append.
        -- apply snd_new_Response.
    + left. unfold handleApiRequest. js_run. unfold caches_open at 1.
      cbn beta iota. unfold fetch at 1. rewrite Hnet. js_run.
      unfold net_ok in Hok. rewrite Hok. reflexivity.
  - left. unfold handleApiRequest. js_run. unfold caches_open at 1.
    cbn beta iota. unfold fetch at 1. rewrite Hnet. js_run.
    unfold cache_match at 1. cbn beta iota.
    destruct (lookup_cache _ API_CACHE_NAME req) as [c|].
    + apply snd_headers_append.
    + apply snd_new_Response.
Qed.

(** The same for [handleStaticRequest]. *)
Lemma handleStaticRequest_world (net : Request -> option NetResponse)
    (req : Request) (w : World) :
  snd (handleStaticRequest net req w) = snd (caches_open CACHE_NAME w) \/
  snd (handleStaticRequest net req w)
  = emit (Fetched req) (snd (caches_open CACHE_NAME w)) \/
  exists r : NetResponse,
    net req = Some r /\ net_ok r = true /\
    snd (handleStaticRequest net req w)
    = set_caches (store CACHE_NAME req (mkResponse r Immutable))
        (emit (Fetched req) (snd (caches_open CACHE_NAME w))).
Proof.
  assert (caches_open CACHE_NAME w
          = (Normal CACHE_NAME, snd (caches_open CACHE_NAME w))) as Hopen
    by reflexivity.
  remember (snd (caches_open CACHE_NAME w)) as w1 eqn:Ew1. clear Ew1.
  remember (snd (handleStaticRequest net req w)) as w' eqn:E. revert E.
  unfold handleStaticRequest. js_run. rewrite Hopen. js_run.
  unfold cache_match at 1. js_run.
  destruct (lookup_cache (caches w1) CACHE_NAME req) as [c|].
  - js_run. cbn [snd]. intros ->. by left.
  - js_run. unfold fetch at 1. destruct (net req) as [r|] eqn:Hnet.
    + js_run. unfold net_ok. destruct (ok (mkResponse r Immutable)) eqn:Hok.
      * unfold clone, cache_put at 1.
        destruct (put_accepts req (mkResponse r Immutable)) eqn:Hput.
        -- js_run. cbn [snd]. intros ->. right; right. by exists r.
        -- js_run. intros ->. right; left.
           destruct (String.eqb (destination req) "document");
             apply snd_new_Response.
      * js_run. cbn [snd]. intros ->. right; left. reflexivity.
    + intros ->. right; left.
      destruct (String.eqb (destination req) "document");
        apply snd_new_Response.
Qed.

Lemma refreshDataInBackground_writes_only_ok (net : Request -> option NetResponse)
    (loc : URL) (w : World) :
  writes_only_ok w (snd (refreshDataInBackground net loc w)).
Proof.
  rewrite refreshDataInBackground_run.
  destruct (net refresh_request) as [r|];
    [|by apply same_entries_writes_only_ok].
  destruct (ok (mkResponse r Immutable)) eqn:Hok;
    [|by apply same_entries_writes_only_ok].
  destruct (put_accepts refresh_request (mkResponse r Immutable)).
  - intros cache key r' Hr'.
    apply (stored_writes_only_ok w API_CACHE_NAME refresh_request r Hok cache key r').
    exact Hr'.
  - apply same_entries_writes_only_ok, same_entries_fetched_open.
Qed.

Lemma writes_only_ok_all_ok (w w' : World) :
  writes_only_ok w w' -> all_ok w -> all_ok w'.
Proof.
  intros Hw Hall cache key r Hr.
  destruct (Hw cache key r Hr) as [Hold|Hok]; [by apply (Hall cache key)|done].
Qed.

(** *** The other listeners, and runs of events *)

Lemma writes_only_ok_trans (w1 w2 w3 : World) :
  writes_only_ok w1 w2 -> writes_only_ok w2 w3 -> writes_only_ok w1 w3.
Proof.
  intros H12 H23 cache key r Hr.
  destruct (H23 cache key r Hr) as [Hr2|Hok]; [by apply H12 | by right].
Qed.

Lemma same_caches_same_entries (w w' : World) :
  caches w' = caches w -> same_entries w w'.
Proof. intros H cache key. unfold entry. by rewrite H. Qed.

Lemma caches_fetched_all (reqs : list Request) (w : World) :
  caches (foldl (fun w r => emit (Fetched r) w) w reqs) = caches w.
Proof.
  revert w. induction reqs as [|r reqs IH]; intros w; [reflexivity|].
  cbn [foldl]. by rewrite IH.
Qed.

Lemma store_all_writes_only_ok (cache : string) (entries : list (Request * Response))
    (w : World) :
  Forall (fun e => ok (snd e) = true) entries ->
  writes_only_ok w
    (set_caches (fun cs => foldl (fun cs e => store cache (fst e) (snd e) cs) cs entries) w).
Proof.
  intros Hall. revert w.
  induction Hall as [|[req resp] entries Hok _ IH]; intros w.
  - apply same_entries_writes_only_ok, same_caches_same_entries. reflexivity.
  - apply (writes_only_ok_trans w (set_caches (store cache req resp) w)).
    + intros c k r Hr. apply entry_store_inv in Hr as [-> | Hr]; [|by left].
      right. unfold net_ok. cbn [snd] in Hok. by destruct resp.
    + apply (IH (set_caches (store cache req resp) w)).
Qed.

Lemma cache_addAll_writes_only_ok (net : Request -> option NetResponse)
    (base : URL) (cache : string) (urls : list string) (w : World) :
  writes_only_ok w (snd (cache_addAll net base cache urls w)).
Proof.
  unfold cache_addAll.
  set (f := fun r : Request =>
              resp ← net r;
              if ok (mkResponse resp Immutable) && put_accepts r (mkResponse resp Immutable)
              then Some (r, mkResponse resp Immutable) else None).
  destruct (mapM f (map (new_Request base) urls)) as [entries|] eqn:E; cbn [snd].
  - apply (writes_only_ok_trans w
             (foldl (fun w r => emit (Fetched r) w) w (map (new_Request base) urls))).
    + apply same_entries_writes_only_ok, same_caches_same_entries,
        caches_fetched_all.
    + apply store_all_writes_only_ok.
      apply mapM_Some_1 in E.
      induction E as [|r e reqs entries' He _ IH]; constructor; [|exact IH].
      unfold f in He. destruct (net r) as [resp|]; [|discriminate He]. cbn in He.
      destruct (ok (mkResponse resp Immutable)) eqn:Hok; [|discriminate He].
      destruct (put_accepts r (mkResponse resp Immutable)); [|discriminate He].
      injection He as <-. exact Hok.
  - apply same_entries_writes_only_ok, same_caches_same_entries,
      caches_fetched_all.
Qed.

Lemma on_install_writes_only_ok (net : Request -> option NetResponse)
    (loc : URL) (w : World) :
  writes_only_ok w (snd (on_install net loc w)).
Proof.
  pose proof (cache_addAll_writes_only_ok net loc CACHE_NAME STATIC_ASSETS
                (snd (caches_open CACHE_NAME w))) as Hadd.
  assert (writes_only_ok w (snd (caches_open CACHE_NAME w))) as Hopen.
  { apply same_entries_writes_only_ok. intros cache key. apply entry_caches_open. }
  assert (on_install net loc w
          = match cache_addAll net loc CACHE_NAME STATIC_ASSETS
                    (snd (caches_open CACHE_NAME w)) with
            | (Normal _, w2) => skipWaiting w2
            | (Throw e, w2) => (Throw e, w2)
            end) as -> by reflexivity.
  destruct (cache_addAll net loc CACHE_NAME STATIC_ASSETS _) as [[[]|e] w2];
    cbn [snd] in Hadd |- *.
  - apply (writes_only_ok_trans _ _ _ Hopen).
    apply (writes_only_ok_trans _ _ _ Hadd).
    apply same_entries_writes_only_ok, same_caches_same_entries. reflexivity.
  - exact (writes_only_ok_trans _ _ _ Hopen Hadd).
Qed.

Lemma on_activate_writes_only_ok (w : World) :
  writes_only_ok w (snd (on_activate w)).
Proof.
  destruct (on_activate_run w) as (w' & -> & _ & Hgone & Hkeep & Hnone).
  intros cache key r Hr. left. revert Hr. unfold entry. cbn [snd emit caches].
  destruct (outdated cache) eqn:E.
  - destruct (caches w !! cache) as [p|] eqn:Ew.
    + rewrite (Hgone cache); [discriminate | by rewrite Ew | exact E].
    + by rewrite (Hnone cache Ew).
  - by rewrite (Hkeep cache E).
Qed.

Lemma on_push_caches (data : option (option JValue)) (w : World) :
  caches (snd (on_push data w)) = caches w.
Proof.
  destruct data as [[d|]|]; try reflexivity.
  unfold on_push, prop. js_run.
  destruct (get_prop d "body"); [|reflexivity]. js_run.
  destruct (get_prop d "url"); reflexivity.
Qed.

Lemma on_notificationclick_caches (action : string) (ndata : JValue) (w : World) :
  caches (snd (on_notificationclick action ndata w)) = caches w.
Proof.
  unfold on_notificationclick. js_run. unfold notification_close at 1.
  cbn beta iota.
  destruct (String.eqb action "open" || negb (truthy (JString action)));
    [|reflexivity].
  js_run. unfold prop. destruct (get_prop ndata "url"); reflexivity.
Qed.

Lemma on_message_caches (data : JValue) (w : World) :
  caches (snd (on_message data w)) = caches w.
Proof.
  unfold on_message. destruct (truthy data); [|reflexivity].
  unfold prop. destruct (get_prop data "type") as [t|]; [|reflexivity].
  js_run.
  destruct (strict_eq_string t "SKIP_WAITING"); unfold skipWaiting; js_run;
    destruct (strict_eq_string t "REQUEST_UPDATE"); reflexivity.
Qed.

Lemma handleApiRequest_writes_only_ok (net : Request -> option NetResponse)
    (req : Request) (w : World) :
  writes_only_ok w (snd (handleApiRequest net req w)).
Proof.
  destruct (handleApiRequest_world net req w) as [-> | (r & _ & Hok & ->)].
  - apply same_entries_writes_only_ok, same_entries_fetched_open.
  - by apply stored_writes_only_ok.
Qed.

Lemma handleStaticRequest_writes_only_ok (net : Request -> option NetResponse)
    (req : Request) (w : World) :
  writes_only_ok w (snd (handleStaticRequest net req w)).
Proof.
  destruct (handleStaticRequest_world net req w)
    as [-> | [-> | (r & _ & Hok & ->)]].
  - apply same_entries_writes_only_ok. intros cache key.
    apply entry_caches_open.
  - apply same_entries_writes_only_ok, same_entries_fetched_open.
  - by apply stored_writes_only_ok.
Qed.

Lemma dispatch_writes_only_ok (loc : URL) (e : Event) (w : World) :
  writes_only_ok w (dispatch loc e w).
Proof.
  destruct e as [net| |net req|data|action ndata|net tag|data]; cbn [dispatch].
  - apply on_install_writes_only_ok.
  - apply on_activate_writes_only_ok.
  - unfold on_fetch.
    destruct (String.eqb (hostname (url req)) "api.raporty.pse.pl").
    + apply handleApiRequest_writes_only_ok.
    + apply handleStaticRequest_writes_only_ok.
  - apply same_entries_writes_only_ok, same_caches_same_entries, on_push_caches.
  - apply same_entries_writes_only_ok, same_caches_same_entries,
      on_notificationclick_caches.
  - unfold on_sync. destruct (String.eqb tag "refresh-data").
    + apply refreshDataInBackground_writes_only_ok.
    + apply same_entries_writes_only_ok, same_caches_same_entries. reflexivity.
  - apply same_entries_writes_only_ok, same_caches_same_entries, on_message_caches.
Qed.

(** Along every run of events the stored responses stay ok. *)
Lemma all_ok_run (loc : URL) (events : list Event) (w : World) :
  all_ok w -> all_ok (run loc events w).
Proof.
  revert w. induction events as [|e events IH]; intros w Hall; [exact Hall|].
  apply (IH (dispatch loc e w)).
  exact (writes_only_ok_all_ok _ _ (dispatch_writes_only_ok loc e w) Hall).
Qed.

(** C10: what the fetch handlers and the background refresh leave in the
    partitions is what was there before or an ok response, so stored
    responses that were all ok stay all ok. A network response that is not
    ok is returned by the fetch handlers as it came and changes no entry of
    any partition; in the background refresh it changes no entry either.
    Along every run of events the stored responses stay all ok, so a
    response that is not ok is never found by a later [match]. *)
Theorem only_ok_responses_are_stored (net : Request -> option NetResponse)
    (loc : URL) (req : Request) (w : World) :
  writes_only_ok w (snd (handleApiRequest net req w)) /\
  writes_only_ok w (snd (handleStaticRequest net req w)) /\
  writes_only_ok w (snd (refreshDataInBackground net loc w)) /\
  (all_ok w ->
   all_ok (snd (handleApiRequest net req w)) /\
   all_ok (snd (handleStaticRequest net req w)) /\
   all_ok (snd (refreshDataInBackground net loc w))) /\
  (forall r : NetResponse,
     net req = Some r -> net_ok r = false ->
     fst (handleApiRequest net req w) = Normal (mkResponse r Immutable) /\
     same_entries w (snd (handleApiRequest net req w))) /\
  (forall r : NetResponse,
     net req = Some r -> net_ok r = false ->
     lookup_cache (caches w) CACHE_NAME req = None ->
     fst (handleStaticRequest net req w) = Normal (mkResponse r Immutable) /\
     same_entries w (snd (handleStaticRequest net req w))) /\
  (forall r : NetResponse,
     net refresh_request = Some r -> net_ok r = false ->
     same_entries w (snd (refreshDataInBackground net loc w))) /\
  (forall events : list Event, all_ok w -> all_ok (run loc events w)).
Proof.
  pose proof (handleApiRequest_writes_only_ok net req w) as Hapi.
  pose proof (handleStaticRequest_writes_only_ok net req w) as Hstatic.
  pose proof (refreshDataInBackground_writes_only_ok net loc w) as Hrefresh.
  split; [exact Hapi|]. split; [exact Hstatic|]. split; [exact Hrefresh|].
  split; [|split; [|split; [|split]]].
  - intros Hall.
    split; [|split]; eapply writes_only_ok_all_ok; eassumption.
  - intros r Hnet Hok.
    assert (handleApiRequest net req w
            = (Normal (mkResponse r Immutable),
               emit (Fetched req) (snd (caches_open API_CACHE_NAME w)))) as ->.
    { unfold handleApiRequest. js_run. unfold caches_open at 1.
      cbn beta iota. unfold fetch at 1. rewrite Hnet. js_run.
      unfold net_ok in Hok. rewrite Hok. reflexivity. }
    split; [reflexivity | apply same_entries_fetched_open].
  - intros r Hnet Hok Hmiss.
    assert (handleStaticRequest net req w
            = (Normal (mkResponse r Immutable),
               emit (Fetched req) (snd (caches_open CACHE_NAME w)))) as ->.
    { unfold handleStaticRequest. js_run.
      pose proof (lookup_cache_open w CACHE_NAME CACHE_NAME req) as Hopen.
      destruct (caches_open CACHE_NAME w) as [[cache|e] w1] eqn:Eopen;
        [|discriminate Eopen].
      injection Eopen as <- Ew1. cbn [snd] in Hopen |- *.
      unfold cache_match at 1. js_run. rewrite Hopen, Hmiss. js_run.
      unfold fetch at 1. rewrite Hnet. js_run.
      unfold net_ok in Hok. rewrite Hok. reflexivity. }
    split; [reflexivity | apply same_entries_fetched_open].
  - intros r Hnet Hok. rewrite refreshDataInBackground_run, Hnet.
    unfold net_ok in Hok. rewrite Hok. intros cache key. reflexivity.
  - intros events. apply all_ok_run.
Qed.

Lemma only_ok_responses_are_stored_witness :
  fst (handleApiRequest (online sample_not_found) sample_api_get sample_world)
  = Normal (mkResponse sample_not_found Immutable) /\
  same_entries sample_world
    (snd (handleApiRequest (online sample_not_found) sample_api_get sample_world)) /\
  fst (handleStaticRequest (online sample_not_found) sample_document sample_world)
  = Normal (mkResponse sample_not_found Immutable).
Proof.
  destruct (only_ok_responses_are_stored (online sample_not_found) sample_location
              sample_api_get sample_world)
    as (_ & _ & _ & _ & Hapi & _ & _ & _).
  destruct (only_ok_responses_are_stored (online sample_not_found) sample_location
              sample_document sample_world)
    as (_ & _ & _ & _ & _ & Hstatic & _ & _).
  destruct (Hapi sample_not_found eq_refl eq_refl) as [Hres Hsame].
  destruct (Hstatic sample_not_found eq_refl eq_refl eq_refl) as [Hres' _].
  exact (conj Hres (conj Hsame Hres')).
Defined.

(** * Further properties of the listeners *)

(** ** Static requests: the network on a miss *)

Lemma handleStaticRequest_hit_run (net : Request -> option NetResponse)
    (req : Request) (w : World) (c : Response) :
  lookup_cache (caches w) CACHE_NAME req = Some c ->
  handleStaticRequest net req w = (Normal c, w).
Proof.
  intros Hhit. unfold handleStaticRequest. js_run.
  rewrite (caches_open_existing w CACHE_NAME (lookup_cache_partition _ _ _ _ Hhit)).
  js_run. unfold cache_match at 1. by rewrite Hhit.
Qed.

(** The run of [handleStaticRequest] on a miss, by the answer of the
    network. *)
Lemma handleStaticRequest_miss_run (net : Request -> option NetResponse)
    (req : Request) (w : World) :
  lookup_cache (caches w) CACHE_NAME req = None ->
  handleStaticRequest net req w =
  match net req with
  | None => handleStaticRequest offline req w
  | Some r =>
      if ok (mkResponse r Immutable)
      then
        if put_accepts req (mkResponse r Immutable)
        then (Normal (mkResponse r Immutable),
              set_caches (store CACHE_NAME req (mkResponse r Immutable))
                (emit (Fetched req) (snd (caches_open CACHE_NAME w))))
        else handleStaticRequest offline req w
      else (Normal (mkResponse r Immutable),
            emit (Fetched req) (snd (caches_open CACHE_NAME w)))
  end.
Proof.
  intros Hmiss.
  rewrite (handleStaticRequest_offline_run offline req w Hmiss eq_refl).
  destruct (net req) as [r|] eqn:Hnet;
    [|by apply handleStaticRequest_offline_run].
  unfold handleStaticRequest. js_run.
  pose proof (lookup_cache_open w CACHE_NAME CACHE_NAME req) as Hopen.
  destruct (caches_open CACHE_NAME w) as [[cache|e] w1] eqn:Eopen;
    [|discriminate Eopen].
  injection Eopen as <- Ew1. cbn [snd] in Hopen |- *.
  unfold cache_match at 1. js_run. rewrite Hopen, Hmiss. js_run.
  unfold fetch at 1. rewrite Hnet. js_run.
  destruct (ok (mkResponse r Immutable)); [|reflexivity].
  unfold clone, cache_put at 1.
  destruct (put_accepts req (mkResponse r Immutable)); reflexivity.
Qed.

(** X1: when a static request misses the partition and the network answers
    with an ok response the cache accepts, [handleStaticRequest] returns the
    live response and stores it; the next request for the same resource is
    answered with that response from the partition, whatever the network
    does then, and leaves the world as it is. *)
Theorem handleStaticRequest_miss_then_hit (net net' : Request -> option NetResponse)
    (req : Request) (w : World) (r : NetResponse) :
  lookup_cache (caches w) CACHE_NAME req = None ->
  net req = Some r ->
  ok (mkResponse r Immutable) = true ->
  put_accepts req (mkResponse r Immutable) = true ->
  fst (handleStaticRequest net req w) = Normal (mkResponse r Immutable) /\
  entry (snd (handleStaticRequest net req w)) CACHE_NAME (key_of req) = Some r /\
  handleStaticRequest net' req (snd (handleStaticRequest net req w))
  = (Normal (mkResponse r Immutable), snd (handleStaticRequest net req w)).
Proof.
  intros Hmiss Hnet Hok Hput.
  rewrite (handleStaticRequest_miss_run net req w Hmiss), Hnet, Hok, Hput.
  cbn [fst snd]. split; [reflexivity|]. split.
  - apply (entry_store _ CACHE_NAME req (mkResponse r Immutable)).
  - apply handleStaticRequest_hit_run.
    unfold set_caches at 1. cbn [caches].
    apply (lookup_cache_store _ CACHE_NAME req (mkResponse r Immutable)).
    by apply put_accepts_GET in Hput.
Qed.

Lemma handleStaticRequest_miss_then_hit_witness :
  handleStaticRequest offline sample_script
    (snd (handleStaticRequest (online sample_ok) sample_script sample_world))
  = (Normal (mkResponse sample_ok Immutable),
     snd (handleStaticRequest (online sample_ok) sample_script sample_world)).
Proof.
  exact (proj2 (proj2 (handleStaticRequest_miss_then_hit (online sample_ok) offline
                         sample_script sample_world sample_ok
                         eq_refl eq_refl eq_refl eq_refl))).
Defined.

(** X2: when a request whose destination is not [document] misses the
    static partition and the network fetch fails, [handleStaticRequest]
    returns a response of status 503 with the text body
    "Service Unavailable", and no entry of any partition changes. *)
Theorem handleStaticRequest_offline_other (net : Request -> option NetResponse)
    (req : Request) (w : World) :
  destination req <> "document" ->
  lookup_cache (caches w) CACHE_NAME req = None ->
  net req = None ->
  exists resp : Response,
    fst (handleStaticRequest net req w) = Normal resp /\
    status (inner resp) = 503%Z /\
    body (inner resp) = "Service Unavailable" /\
    headers_get "Content-Type" (headers (inner resp)) = Some "text/plain;charset=UTF-8" /\
    same_entries w (snd (handleStaticRequest net req w)).
Proof.
  intros Hdest Hmiss Hnet.
  rewrite (handleStaticRequest_offline_run net req w Hmiss Hnet).
  apply String.eqb_neq in Hdest. rewrite Hdest.
  eexists. split; [reflexivity|]. cbn [inner status body headers].
  repeat split. intros cache key. apply entry_caches_open.
Qed.

Lemma handleStaticRequest_offline_other_witness :
  exists resp : Response,
    fst (handleStaticRequest offline sample_script sample_world) = Normal resp /\
    status (inner resp) = 503%Z /\
    body (inner resp) = "Service Unavailable".
Proof.
  destruct (handleStaticRequest_offline_other offline sample_script sample_world)
    as (resp & Hres & Hstatus & Hbody & _); [discriminate | reflexivity | reflexivity |].
  exists resp. exact (conj Hres (conj Hstatus Hbody)).
Defined.

(** X3: an ok network response that the cache refuses to store (a request
    that is not a GET over http or https, a 206, a [Vary: *]) is handled by
    [handleStaticRequest] exactly as a failure of the network: the caller
    gets the offline page or the 503, not the live response, and nothing is
    stored. *)
Theorem handleStaticRequest_refused_as_offline (net : Request -> option NetResponse)
    (req : Request) (w : World) (r : NetResponse) :
  lookup_cache (caches w) CACHE_NAME req = None ->
  net req = Some r ->
  ok (mkResponse r Immutable) = true ->
  put_accepts req (mkResponse r Immutable) = false ->
  handleStaticRequest net req w = handleStaticRequest offline req w /\
  fst (handleStaticRequest net req w) <> Normal (mkResponse r Immutable) /\
  same_entries w (snd (handleStaticRequest net req w)).
Proof.
  intros Hmiss Hnet Hok Hput.
  rewrite (handleStaticRequest_miss_run net req w Hmiss), Hnet, Hok, Hput.
  split; [reflexivity|].
  rewrite (handleStaticRequest_offline_run offline req w Hmiss eq_refl).
  split.
  - destruct (String.eqb (destination req) "document"); cbn; intros [= _ Hg];
      discriminate Hg.
  - intros cache key.
    destruct (String.eqb (destination req) "document");
      rewrite snd_new_Response; apply entry_caches_open.
Qed.

Lemma handleStaticRequest_refused_as_offline_witness :
  exists resp : Response,
    fst (handleStaticRequest (online sample_ok) sample_form_post sample_world)
    = Normal resp /\
    body (inner resp) = offline_page.
Proof.
  destruct (handleStaticRequest_refused_as_offline (online sample_ok) sample_form_post
              sample_world sample_ok eq_refl eq_refl eq_refl eq_refl)
    as (Hrun & _ & _).
  rewrite Hrun. eexists. split; reflexivity.
Defined.

(** ** API requests: a refused store, the effects, the frame *)

(** The run of [handleApiRequest] when the network fails. *)
Lemma handleApiRequest_offline_run (net : Request -> option NetResponse)
    (req : Request) (w : World) :
  net req = None ->
  handleApiRequest net req w
  = match lookup_cache (caches w) API_CACHE_NAME req with
    | Some c => headers_append (clone c) "X-Served-From" "cache"
    | None =>
        new_Response
          (default EmptyString (stringify api_error_payload))
          (Some 503%Z) (Some "Service Unavailable")
          [ ("Content-Type", "application/json"); ("X-Served-From", "error") ]
    end (emit (Fetched req) (snd (caches_open API_CACHE_NAME w))).
Proof.
  intros Hnet. unfold handleApiRequest. js_run.
  pose proof (lookup_cache_open w API_CACHE_NAME API_CACHE_NAME req) as Hopen.
  destruct (caches_open API_CACHE_NAME w) as [[cache|e] w1] eqn:Eopen;
    [|discriminate Eopen].
  injection Eopen as <- Ew1. cbn [snd] in Hopen |- *.
  unfold fetch at 1. rewrite Hnet. js_run.
  unfold cache_match at 1. cbn [caches emit]. js_run.
  rewrite Hopen. by destruct (lookup_cache (caches w) API_CACHE_NAME req).
Qed.

(** X4: an ok network response that the cache refuses to store (a request
    that is not a GET over http or https, a 206, a [Vary: *]) is handled by
    [handleApiRequest] exactly as a failure of the network: the caller does
    not get the live response, and nothing is stored. *)
Theorem handleApiRequest_refused_as_offline (net : Request -> option NetResponse)
    (req : Request) (w : World) (r : NetResponse) :
  net req = Some r ->
  ok (mkResponse r Immutable) = true ->
  put_accepts req (mkResponse r Immutable) = false ->
  handleApiRequest net req w = handleApiRequest offline req w /\
  fst (handleApiRequest net req w) <> Normal (mkResponse r Immutable) /\
  same_entries w (snd (handleApiRequest net req w)).
Proof.
  intros Hnet Hok Hput.
  assert (handleApiRequest net req w = handleApiRequest offline req w) as ->.
  { rewrite (handleApiRequest_offline_run offline req w eq_refl).
    unfold handleApiRequest. js_run.
    pose proof (lookup_cache_open w API_CACHE_NAME API_CACHE_NAME req) as Hopen.
    destruct (caches_open API_CACHE_NAME w) as [[cache|e] w1] eqn:Eopen;
      [|discriminate Eopen].
    injection Eopen as <- Ew1. cbn [snd] in Hopen |- *.
    unfold fetch at 1. rewrite Hnet. js_run. rewrite Hok.
    unfold clone at 1, cache_put at 1. rewrite Hput. js_run.
    unfold cache_match at 1. cbn [caches emit]. js_run.
    rewrite Hopen. by destruct (lookup_cache (caches w) API_CACHE_NAME req). }
  split; [reflexivity|].
  rewrite (handleApiRequest_offline_run offline req w eq_refl).
  destruct (lookup_cache (caches w) API_CACHE_NAME req) as [c|] eqn:Hc.
  - unfold clone, headers_append.
    rewrite (lookup_cache_immutable _ _ _ _ Hc). cbn [throw fst snd].
    split; [discriminate|]. apply same_entries_fetched_open.
  - split.
    + cbn. intros H. inversion H.
    + rewrite snd_new_Response. apply same_entries_fetched_open.
Qed.

Lemma handleApiRequest_refused_as_offline_witness :
  exists resp : Response,
    fst (handleApiRequest (online sample_ok) sample_api_post sample_world)
    = Normal resp /\
    status (inner resp) = 503%Z.
Proof.
  destruct (handleApiRequest_refused_as_offline (online sample_ok) sample_api_post
              sample_world sample_ok eq_refl eq_refl eq_refl)
    as (Hrun & _ & _).
  rewrite Hrun. eexists. split; reflexivity.
Defined.

(** X5: [handleApiRequest] makes exactly one fetch, of the request it was
    given, on every path, and has no other effect outside the cache
    storage; [handleStaticRequest] makes no fetch on a hit and exactly one
    on a miss, and has no other effect either. Neither retries, posts a
    message, or touches the life cycle. *)
Theorem fetch_handlers_effects (net : Request -> option NetResponse)
    (req : Request) (w : World) :
  (trace (snd (handleApiRequest net req w)) = trace w ++ [Fetched req] /\
   clients (snd (handleApiRequest net req w)) = clients w /\
   lifecycle (snd (handleApiRequest net req w)) = lifecycle w /\
   skip_waiting_flag (snd (handleApiRequest net req w)) = skip_waiting_flag w) /\
  (trace (snd (handleStaticRequest net req w))
   = trace w ++ match lookup_cache (caches w) CACHE_NAME req with
                | Some _ => []
                | None => [Fetched req]
                end /\
   clients (snd (handleStaticRequest net req w)) = clients w /\
   lifecycle (snd (handleStaticRequest net req w)) = lifecycle w /\
   skip_waiting_flag (snd (handleStaticRequest net req w)) = skip_waiting_flag w).
Proof.
  split.
  - by destruct (handleApiRequest_world net req w) as [-> | (r & _ & _ & ->)].
  - destruct (lookup_cache (caches w) CACHE_NAME req) as [c|] eqn:Hc.
    + rewrite (handleStaticRequest_hit_run net req w c Hc). cbn [snd].
      by rewrite app_nil_r.
    + rewrite (handleStaticRequest_miss_run net req w Hc).
      rewrite (handleStaticRequest_offline_run offline req w Hc eq_refl).
      destruct (net req) as [r|];
        [destruct (ok (mkResponse r Immutable)),
                  (put_accepts req (mkResponse r Immutable))|];
        try done;
        destruct (String.eqb (destination req) "document");
        by rewrite snd_new_Response.
Qed.

Lemma entry_store_other (w : World) (name cache key : string) (req : Request)
    (resp : Response) :
  cache <> name \/ key <> key_of req ->
  entry (set_caches (store name req resp) w) cache key = entry w cache key.
Proof.
  intros Hother. unfold entry, set_caches, store. cbn [caches].
  destruct (decide (name = cache)) as [->|Hne].
  - destruct Hother as [Hc|Hk]; [done|].
    rewrite lookup_insert_eq. cbn. rewrite lookup_insert_ne by done.
    destruct (caches w !! cache) as [p|]; cbn; [reflexivity|apply lookup_empty].
  - by rewrite lookup_insert_ne.
Qed.

(** X6: the two fetch handlers and the background refresh keep to their own
    partition and their own key. [handleApiRequest] changes no entry but
    that of its request in the API partition, [handleStaticRequest] none but
    that of its request in the static partition, and
    [refreshDataInBackground] none but that of the fixed endpoint in the API
    partition. *)
Theorem handlers_change_only_their_entry (net : Request -> option NetResponse)
    (loc : URL) (req : Request) (w : World) (cache key : string) :
  (cache <> API_CACHE_NAME \/ key <> key_of req ->
   entry (snd (handleApiRequest net req w)) cache key = entry w cache key) /\
  (cache <> CACHE_NAME \/ key <> key_of req ->
   entry (snd (handleStaticRequest net req w)) cache key = entry w cache key) /\
  (cache <> API_CACHE_NAME \/ key <> "https://api.raporty.pse.pl/api/pk5l-wp?$first=200" ->
   entry (snd (refreshDataInBackground net loc w)) cache key = entry w cache key).
Proof.
  split; [|split]; intros Hother.
  - destruct (handleApiRequest_world net req w) as [-> | (r & _ & _ & ->)].
    + apply same_entries_fetched_open.
    + rewrite entry_store_other by done. apply same_entries_fetched_open.
  - destruct (handleStaticRequest_world net req w)
      as [-> | [-> | (r & _ & _ & ->)]].
    + apply entry_caches_open.
    + apply same_entries_fetched_open.
    + rewrite entry_store_other by done. apply same_entries_fetched_open.
  - rewrite refreshDataInBackground_run.
    destruct (net refresh_request) as [r|]; [|reflexivity].
    destruct (ok (mkResponse r Immutable)); [|reflexivity].
    destruct (put_accepts refresh_request (mkResponse r Immutable)).
    + cbn [snd].
      change (entry (set_caches (store API_CACHE_NAME refresh_request
                                   (mkResponse r Immutable))
                       (mkWorld (caches (snd (caches_open API_CACHE_NAME w)))
                          (clients w) (lifecycle w) (skip_waiting_flag w)
                          (trace w ++ Fetched refresh_request
                             :: map (fun c => MessagePosted c DATA_UPDATED) (clients w))))
                    cache key = entry w cache key).
      rewrite entry_store_other by done.
      apply (entry_caches_open w API_CACHE_NAME cache key).
    + apply same_entries_fetched_open.
Qed.

Lemma handlers_change_only_their_entry_witness :
  entry (snd (handleApiRequest (online sample_ok) sample_api_get sample_world_old))
        CACHE_NAME "https://dashboard.example/"
  = entry sample_world_old CACHE_NAME "https://dashboard.example/".
Proof.
  apply (proj1 (handlers_change_only_their_entry (online sample_ok) sample_location
                  sample_api_get sample_world_old CACHE_NAME
                  "https://dashboard.example/")).
  left. discriminate.
Defined.

(** ** Installation: all the assets or none *)

Lemma fetched_all_world (reqs : list Request) (w : World) :
  foldl (fun w r => emit (Fetched r) w) w reqs
  = mkWorld (caches w) (clients w) (lifecycle w) (skip_waiting_flag w)
            (trace w ++ map Fetched reqs).
Proof.
  revert w. induction reqs as [|r reqs IH]; intros w.
  - cbn. rewrite app_nil_r. by destruct w.
  - cbn [foldl map]. rewrite IH. unfold emit.
    cbn [caches clients lifecycle skip_waiting_flag trace].
    by rewrite <- app_assoc.
Qed.

Lemma fetches_Fetched (reqs : list Request) : fetches (map Fetched reqs) = reqs.
Proof. induction reqs as [|r reqs IH]; [reflexivity|]. cbn. by rewrite IH. Qed.





Lemma addAll_rejected (net : Request -> option NetResponse) (reqs : list Request) :
  forallb (precachable net) reqs = false ->
  mapM (fun r => resp ← net r;
                 if ok (mkResponse resp Immutable)
                    && put_accepts r (mkResponse resp Immutable)
                 then Some (r, mkResponse resp Immutable) else None) reqs
  = None.
Proof.
  induction reqs as [|r reqs IH]; intros Hall; [discriminate Hall|].
  cbn [forallb] in Hall. cbn. unfold precachable in Hall.
  destruct (net r) as [resp|]; [|reflexivity]. cbn.
  destruct (ok (mkResponse resp Immutable)
            && put_accepts r (mkResponse resp Immutable)); [|reflexivity].
  cbn in Hall |- *. cbn in IH. by rewrite (IH Hall).
Qed.

Lemma on_install_run (net : Request -> option NetResponse) (loc : URL) (w : World) :
  on_install net loc w
  = match cache_addAll net loc CACHE_NAME STATIC_ASSETS
            (snd (caches_open CACHE_NAME w)) with
    | (Normal _, w2) => skipWaiting w2
    | (Throw e, w2) => (Throw e, w2)
    end.
Proof. reflexivity. Qed.



(** X8: when the network fails for one of the static assets, or answers it
    with a response that is not ok or that the cache refuses, the install
    listener rejects: the four fetches were made, no entry of any partition
    has changed, and [skipWaiting] is not called. *)
Theorem on_install_all_or_nothing (net : Request -> option NetResponse)
    (loc : URL) (w : World) :
  forallb (precachable net) (asset_requests loc) = false ->
  fst (on_install net loc w) = Throw AddAllRejected /\
  same_entries w (snd (on_install net loc w)) /\
  trace (snd (on_install net loc w)) = trace w ++ map Fetched (asset_requests loc) /\
  skip_waiting_flag (snd (on_install net loc w)) = skip_waiting_flag w /\
  lifecycle (snd (on_install net loc w)) = lifecycle w.
Proof.
  intros Hall.
  rewrite on_install_run. unfold cache_addAll.
  fold (asset_requests loc).
  rewrite (addAll_rejected net (asset_requests loc) Hall), fetched_all_world.
  cbn [fst snd trace skip_waiting_flag lifecycle caches_open set_caches].
  repeat split.
  intros cache key. apply (entry_caches_open w CACHE_NAME cache key).
Qed.

Lemma on_install_all_or_nothing_witness :
  fst (on_install offline sample_location sample_world) = Throw AddAllRejected /\
  skip_waiting_flag (snd (on_install offline sample_location sample_world)) = false.
Proof.
  destruct (on_install_all_or_nothing offline sample_location sample_world eq_refl)
    as (Hres & _ & _ & Hflag & _).
  exact (conj Hres Hflag).
Defined.

(** ** Partitions: none but the two current ones is ever created *)

Lemma caches_open_names (w : World) (cache name : string) :
  is_Some (caches (snd (caches_open cache w)) !! name) ->
  is_Some (caches w !! name) \/ name = cache.
Proof.
  unfold caches_open, set_caches. cbn [snd caches].
  destruct (caches w !! cache) as [p|] eqn:E; [by left|].
  destruct (decide (cache = name)) as [->|Hne]; [by right|].
  rewrite lookup_insert_ne by done. by left.
Qed.

Lemma store_names (cs : gmap string (gmap string NetResponse)) (cache name : string)
    (req : Request) (resp : Response) :
  is_Some (store cache req resp cs !! name) -> is_Some (cs !! name) \/ name = cache.
Proof.
  unfold store. destruct (decide (cache = name)) as [->|Hne]; [by right|].
  rewrite lookup_insert_ne by done. by left.
Qed.

Lemma store_all_names (cache name : string) (entries : list (Request * Response))
    (cs : gmap string (gmap string NetResponse)) :
  is_Some (foldl (fun cs e => store cache (fst e) (snd e) cs) cs entries !! name) ->
  is_Some (cs !! name) \/ name = cache.
Proof.
  revert cs. induction entries as [|e entries IH]; intros cs H; [by left|].
  cbn [foldl] in H. destruct (IH _ H) as [H'|H']; [|by right].
  by apply store_names in H'.
Qed.

Lemma handleApiRequest_names (net : Request -> option NetResponse)
    (req : Request) (w : World) (name : string) :
  is_Some (caches (snd (handleApiRequest net req w)) !! name) ->
  is_Some (caches w !! name) \/ name = API_CACHE_NAME.
Proof.
  destruct (handleApiRequest_world net req w) as [-> | (r & _ & _ & ->)].
  - apply caches_open_names.
  - unfold set_caches at 1. cbn [caches]. intros H.
    apply store_names in H as [H|H]; [|by right].
    by apply (caches_open_names w API_CACHE_NAME name).
Qed.

Lemma handleStaticRequest_names (net : Request -> option NetResponse)
    (req : Request) (w : World) (name : string) :
  is_Some (caches (snd (handleStaticRequest net req w)) !! name) ->
  is_Some (caches w !! name) \/ name = CACHE_NAME.
Proof.
  destruct (handleStaticRequest_world net req w)
    as [-> | [-> | (r & _ & _ & ->)]].
  - apply caches_open_names.
  - apply caches_open_names.
  - unfold set_caches at 1. cbn [caches]. intros H.
    apply store_names in H as [H|H]; [|by right].
    by apply (caches_open_names w CACHE_NAME name).
Qed.

Lemma refreshDataInBackground_names (net : Request -> option NetResponse)
    (loc : URL) (w : World) (name : string) :
  is_Some (caches (snd (refreshDataInBackground net loc w)) !! name) ->
  is_Some (caches w !! name) \/ name = API_CACHE_NAME.
Proof.
  rewrite refreshDataInBackground_run.
  destruct (net refresh_request) as [r|]; [|by left].
  destruct (ok (mkResponse r Immutable)); [|by left].
  destruct (put_accepts refresh_request (mkResponse r Immutable)); cbn [snd caches].
  - intros H. apply store_names in H as [H|H]; [|by right].
    by apply (caches_open_names w API_CACHE_NAME name).
  - apply caches_open_names.
Qed.

Lemma on_install_names (net : Request -> option NetResponse)
    (loc : URL) (w : World) (name : string) :
  is_Some (caches (snd (on_install net loc w)) !! name) ->
  is_Some (caches w !! name) \/ name = CACHE_NAME.
Proof.
  rewrite on_install_run. unfold cache_addAll. rewrite fetched_all_world.
  destruct (mapM _ _) as [entries|]; cbn [snd caches skipWaiting set_caches].
  - intros H. apply store_all_names in H as [H|H]; [|by right].
    by apply (caches_open_names w CACHE_NAME name).
  - apply caches_open_names.
Qed.

Lemma dispatch_names (loc : URL) (e : Event) (w : World) (name : string) :
  is_Some (caches (dispatch loc e w) !! name) ->
  is_Some (caches w !! name) \/ name = CACHE_NAME \/ name = API_CACHE_NAME.
Proof.
  destruct e as [net| |net req|data|action ndata|net tag|data]; cbn [dispatch].
  - intros H. apply on_install_names in H. tauto.
  - destruct (on_activate_run w) as (w' & -> & _ & _ & _ & Hnone).
    cbn [snd emit caches]. intros H. left.
    destruct (caches w !! name) as [p|] eqn:E; [by eexists|].
    rewrite (Hnone name E) in H. by destruct H.
  - unfold on_fetch.
    destruct (String.eqb (hostname (url req)) "api.raporty.pse.pl"); intros H.
    + apply handleApiRequest_names in H. tauto.
    + apply handleStaticRequest_names in H. tauto.
  - rewrite on_push_caches. by left.
  - rewrite on_notificationclick_caches. by left.
  - unfold on_sync. destruct (String.eqb tag "refresh-data"); intros H.
    + apply refreshDataInBackground_names in H. tauto.
    + by left.
  - rewrite on_message_caches. by left.
Qed.

(** X9: no listener ever creates a partition other than [pse-dashboard-v1]
    and [pse-api-cache-v1]. So a cache storage that holds only these two
    holds only these two after every run of events, and this is the case
    from an activate event on. *)
Theorem no_other_partition_is_created (loc : URL) :
  (forall (e : Event) (w : World) (name : string),
     is_Some (caches (dispatch loc e w) !! name) ->
     is_Some (caches w !! name) \/
     name = "pse-dashboard-v1" \/ name = "pse-api-cache-v1") /\
  (forall (events : list Event) (w : World),
     only_current_partitions w -> only_current_partitions (run loc events w)) /\
  (forall (events : list Event) (w : World),
     only_current_partitions (run loc events (snd (on_activate w)))).
Proof.
  assert (forall (events : list Event) (w : World),
             only_current_partitions w -> only_current_partitions (run loc events w))
    as Hrun.
  { induction events as [|e events IH]; intros w Hw; [exact Hw|].
    apply (IH (dispatch loc e w)). intros name Hname.
    apply dispatch_names in Hname as [Hname|Hname]; [by apply Hw | exact Hname]. }
  split; [exact (dispatch_names loc)|]. split; [exact Hrun|].
  intros events w. apply Hrun. intros name Hname.
  destruct (on_activate_run w) as (w' & Hact & _ & Hgone & _ & Hnone).
  rewrite Hact in Hname. cbn [snd emit caches] in Hname.
  destruct (outdated name) eqn:E.
  - destruct (caches w !! name) as [p|] eqn:Ew.
    + rewrite (Hgone name) in Hname; [by destruct Hname | by rewrite Ew | exact E].
    + rewrite (Hnone name Ew) in Hname. by destruct Hname.
  - unfold outdated in E.
    destruct (String.eqb_spec name CACHE_NAME) as [->|]; [by left|].
    destruct (String.eqb_spec name API_CACHE_NAME) as [->|]; [by right|].
    discriminate E.
Qed.

Lemma no_other_partition_is_created_witness :
  only_current_partitions
    (run sample_location
       [ FetchEvent (online sample_ok) sample_api_get
       ; SyncEvent (online sample_ok) "refresh-data"
       ; FetchEvent offline sample_document ]
       sample_world).
Proof.
  apply (proj1 (proj2 (no_other_partition_is_created sample_location))).
  intros name [p Hp]. discriminate Hp.
Defined.

(** X10: activating twice leaves the cache storage as activating once
    does: the cleanup is idempotent. *)
Theorem on_activate_idempotent (w : World) :
  caches (snd (on_activate (snd (on_activate w)))) = caches (snd (on_activate w)).
Proof.
  destruct (on_activate_run w) as (w1 & -> & _ & Hgone1 & Hkeep1 & Hnone1).
  cbn [snd].
  destruct (on_activate_run (emit ClientsClaimed w1))
    as (w2 & -> & _ & Hgone2 & Hkeep2 & Hnone2).
  cbn [snd emit caches] in *. apply map_eq. intros name.
  destruct (outdated name) eqn:E.
  - assert (caches w1 !! name = None) as Hn.
    { destruct (caches w !! name) as [p|] eqn:Ew.
      - apply Hgone1; [by rewrite Ew | exact E].
      - by apply Hnone1. }
    rewrite Hn. by apply Hnone2.
  - by apply Hkeep2.
Qed.

(** ** Push notifications and their clicks *)

(** The notification the push listener shows for a payload with the
    properties [b] and [u] as body and URL. *)
Lemma on_push_run (d b u : JValue) (w : World) :
  get_prop d "body" = Some b ->
  get_prop d "url" = Some u ->
  on_push (Some (Some d)) w
  = (Normal tt,
     emit (NotificationShown "PSE Dashboard"
             (mkOptions
                (to_string (js_or b (JString "Nowy alert rezerw mocy!")))
                "/apple-touch-icon-180x180.png"
                "/apple-touch-icon-180x180.png"
                [100; 50; 100]%Z
                (JObject [ ("url", js_or u (JString "/")) ])
                [ ("open", "Otwórz Dashboard"); ("close", "Zamknij") ])) w).
Proof.
  intros Hb Hu. unfold on_push, prop. rewrite Hb. js_run. rewrite Hu. js_run.
  reflexivity.
Qed.

(** X11: a push with a payload that is an object, a string or a boolean
    shows exactly one notification, titled "PSE Dashboard", whose body is
    the [body] of the payload, or the fixed text when that is absent or
    empty, and whose data carry the [url] of the payload, or the root path.
    A push without payload shows nothing; a payload that does not parse, or
    that parses to [null], makes the listener throw before anything is
    shown. *)
Theorem on_push_shows_notification (w : World) :
  on_push None w = (Normal tt, w) /\
  on_push (Some None) w = (Throw JsonSyntax, w) /\
  on_push (Some (Some JNull)) w = (Throw NullProperty, w) /\
  (forall d b u : JValue,
     get_prop d "body" = Some b ->
     get_prop d "url" = Some u ->
     exists o : NotificationOptions,
       on_push (Some (Some d)) w
       = (Normal tt, emit (NotificationShown "PSE Dashboard" o) w) /\
       opt_body o = (if truthy b then to_string b else "Nowy alert rezerw mocy!") /\
       opt_data o = JObject [ ("url", if truthy u then u else JString "/") ] /\
       map fst (opt_actions o) = [ "open"; "close" ]).
Proof.
  repeat split.
  intros d b u Hb Hu. eexists. split; [exact (on_push_run d b u w Hb Hu)|].
  cbn [opt_body opt_data opt_actions]. unfold js_or.
  by destruct (truthy b), (truthy u).
Qed.

Lemma on_push_shows_notification_witness :
  exists o : NotificationOptions,
    on_push (Some (Some (JObject [ ("url", JString "/alerts") ]))) sample_world
    = (Normal tt, emit (NotificationShown "PSE Dashboard" o) sample_world) /\
    opt_body o = "Nowy alert rezerw mocy!" /\
    opt_data o = JObject [ ("url", JString "/alerts") ].
Proof.
  destruct (proj2 (proj2 (proj2 (on_push_shows_notification sample_world)))
              (JObject [ ("url", JString "/alerts") ]) JUndefined (JString "/alerts")
              eq_refl eq_refl)
    as (o & Hrun & Hbody & Hdata & _).
  exists o. exact (conj Hrun (conj Hbody Hdata)).
Defined.

(** X12: a click on a notification that the push listener has shown never
    throws: on the body of the notification or on its [open] button it
    closes the notification and opens a window to the [url] of the push
    payload, or to the root path when the payload had none; on its [close]
    button it only closes the notification. *)
Theorem push_then_click (d b u : JValue) (w w2 : World) :
  get_prop d "body" = Some b ->
  get_prop d "url" = Some u ->
  exists o : NotificationOptions,
    trace (snd (on_push (Some (Some d)) w))
    = trace w ++ [NotificationShown "PSE Dashboard" o] /\
    (forall action : string,
       action = "open" \/ action = EmptyString ->
       on_notificationclick action (opt_data o) w2
       = (Normal tt,
          emit (WindowOpened (if truthy u then to_string u else "/"))
               (emit NotificationClosed w2))) /\
    (forall action : string,
       action ∈ map fst (opt_actions o) ->
       action <> "open" ->
       on_notificationclick action (opt_data o) w2
       = (Normal tt, emit NotificationClosed w2)).
Proof.
  intros Hb Hu. eexists. rewrite (on_push_run d b u w Hb Hu).
  cbn [snd emit trace opt_data opt_actions map fst].
  split; [reflexivity|]. split.
  - intros action Haction.
    unfold on_notificationclick. js_run. unfold notification_close at 1.
    cbn beta iota.
    assert (String.eqb action "open" || negb (truthy (JString action)) = true) as ->.
    { by destruct Haction as [-> | ->]. }
    js_run. unfold prop, js_or.
    destruct (truthy u) eqn:Et; cbn; rewrite ?Et; reflexivity.
  - intros action Hin Hopen.
    apply elem_of_cons in Hin as [-> | Hin]; [done|].
    apply list_elem_of_singleton in Hin as ->. reflexivity.
Qed.

Lemma push_then_click_witness :
  exists o : NotificationOptions,
    trace (snd (on_push (Some (Some (JObject [ ("body", JString "Alert") ]))) sample_world))
    = [ NotificationShown "PSE Dashboard" o ] /\
    on_notificationclick EmptyString (opt_data o) sample_world
    = (Normal tt, emit (WindowOpened "/") (emit NotificationClosed sample_world)).
Proof.
  destruct (push_then_click (JObject [ ("body", JString "Alert") ])
              (JString "Alert") JUndefined sample_world sample_world eq_refl eq_refl)
    as (o & Htrace & Hopen & _).
  exists o. split; [exact Htrace|]. apply Hopen. by right.
Defined.

(** X13: a click with the action [open] or with no action on a notification
    whose data are [null] or [undefined] closes the notification and then
    throws on the read of [data.url]: no window is opened. *)
Theorem on_notificationclick_without_data (action : string) (ndata : JValue) (w : World) :
  action = "open" \/ action = EmptyString ->
  ndata = JNull \/ ndata = JUndefined ->
  on_notificationclick action ndata w = (Throw NullProperty, emit NotificationClosed w).
Proof.
  intros Haction Hdata.
  unfold on_notificationclick. js_run. unfold notification_close at 1.
  cbn beta iota.
  assert (String.eqb action "open" || negb (truthy (JString action)) = true) as ->.
  { by destruct Haction as [-> | ->]. }
  by destruct Hdata as [-> | ->].
Qed.

Lemma on_notificationclick_without_data_witness :
  on_notificationclick "open" JNull sample_world
  = (Throw NullProperty, emit NotificationClosed sample_world).
Proof.
  apply on_notificationclick_without_data; [by left | by left].
Defined.

(** ** Messages and syncs that are not for the worker *)

(** X14: a message whose data are falsy, or whose [type] is neither
    [SKIP_WAITING] nor [REQUEST_UPDATE] (missing included), is ignored: the
    listener completes and the world is as it was. *)
Theorem on_message_ignores_other (data : JValue) (w : World) :
  truthy data = false \/
  (exists t : JValue,
     get_prop data "type" = Some t /\
     t <> JString "SKIP_WAITING" /\ t <> JString "REQUEST_UPDATE") ->
  on_message data w = (Normal tt, w).
Proof.
  intros [Hfalsy | (t & Ht & Hskip & Hupd)]; unfold on_message.
  - by rewrite Hfalsy.
  - destruct (truthy data); [|reflexivity].
    unfold prop. rewrite Ht. js_run.
    assert (strict_eq_string t "SKIP_WAITING" = false) as ->.
    { apply not_true_is_false. by rewrite strict_eq_string_true. }
    js_run.
    assert (strict_eq_string t "REQUEST_UPDATE" = false) as ->.
    { apply not_true_is_false. by rewrite strict_eq_string_true. }
    reflexivity.
Qed.

Lemma on_message_ignores_other_witness :
  on_message (JString "ping") sample_world = (Normal tt, sample_world) /\
  on_message JNull sample_world = (Normal tt, sample_world).
Proof.
  split.
  - apply on_message_ignores_other. right. exists JUndefined.
    split; [reflexivity|]. split; discriminate.
  - apply on_message_ignores_other. by left.
Defined.

(** X15: a sync event with a tag other than [refresh-data] does nothing.
    On [refresh-data], an answer of the endpoint that is not ok (a 404, a
    500) ends the refresh after its one fetch: nothing is stored, no
    message is posted, nothing is thrown. *)
Theorem on_sync_nothing_to_do (net : Request -> option NetResponse)
    (loc : URL) (w : World) :
  (forall tag : string,
     tag <> "refresh-data" -> on_sync net loc tag w = (Normal tt, w)) /\
  (forall r : NetResponse,
     net refresh_request = Some r ->
     net_ok r = false ->
     on_sync net loc "refresh-data" w = (Normal tt, emit (Fetched refresh_request) w)).
Proof.
  split.
  - intros tag Htag. unfold on_sync. apply String.eqb_neq in Htag. by rewrite Htag.
  - intros r Hnet Hok.
    assert (on_sync net loc "refresh-data" w = refreshDataInBackground net loc w)
      as -> by reflexivity.
    rewrite refreshDataInBackground_run, Hnet. unfold net_ok in Hok. by rewrite Hok.
Qed.

Lemma on_sync_nothing_to_do_witness :
  on_sync (online sample_ok) sample_location "other-tag" sample_world
  = (Normal tt, sample_world) /\
  on_sync (online sample_not_found) sample_location "refresh-data" sample_world
  = (Normal tt, emit (Fetched refresh_request) sample_world).
Proof.
  destruct (on_sync_nothing_to_do (online sample_not_found) sample_location sample_world)
    as [_ Hnotok].
  destruct (on_sync_nothing_to_do (online sample_ok) sample_location sample_world)
    as [Hother _].
  split; [apply Hother; discriminate | exact (Hnotok sample_not_found eq_refl eq_refl)].
Defined.

(** X16: every sync the message listener registers is one the sync listener
    answers with the background refresh: for a tag registered while a
    message was handled, the sync event makes the one fetch of the fixed
    endpoint. *)
Theorem registered_sync_is_handled (net : Request -> option NetResponse)
    (loc : URL) (data : JValue) (w w2 : World) (tag : string) :
  SyncRegistered tag ∈ drop (length (trace w)) (trace (snd (on_message data w))) ->
  on_sync net loc tag w2 = refreshDataInBackground net loc w2 /\
  fetches (trace (snd (on_sync net loc tag w2))) = fetches (trace w2) ++ [refresh_request].
Proof.
  intros Hreg.
  assert (tag = "refresh-data") as ->.
  { revert Hreg. unfold on_message.
    destruct (truthy data);
      [|js_run; cbn [snd]; rewrite drop_all; by intros H%elem_of_nil].
    unfold prop. destruct (get_prop data "type") as [t|];
      [|cbn [snd throw]; rewrite drop_all; by intros H%elem_of_nil].
    js_run.
    destruct (strict_eq_string t "SKIP_WAITING"); unfold skipWaiting; js_run;
      destruct (strict_eq_string t "REQUEST_UPDATE"); js_run;
      unfold sync_register, emit; cbn [snd trace];
      rewrite <- ?app_assoc, ?drop_app_length, ?drop_all; cbn [app];
      intros H; repeat (apply elem_of_cons in H as [H|H]; [by inversion H|]);
      by apply elem_of_nil in H. }
  split; [reflexivity|].
  assert (on_sync net loc "refresh-data" w2 = refreshDataInBackground net loc w2)
    as -> by reflexivity.
  rewrite refreshDataInBackground_run.
  destruct (net refresh_request) as [r|];
    [destruct (ok (mkResponse r Immutable)),
              (put_accepts refresh_request (mkResponse r Immutable))|];
    cbn [snd trace emit caches_open set_caches];
    rewrite ?fetches_app; cbn [fetches]; rewrite ?fetches_posted; reflexivity.
Qed.

Lemma registered_sync_is_handled_witness :
  fetches (trace (snd (on_sync offline sample_location "refresh-data" sample_world)))
  = [ refresh_request ].
Proof.
  refine (proj2 (registered_sync_is_handled offline sample_location
                   (JObject [ ("type", JString "REQUEST_UPDATE") ])
                   sample_world sample_world "refresh-data" _)).
  apply list_elem_of_here.
Defined.

(** ** The background refresh and the requests of the pages *)


